(** * Verification of the transit display driver (src/main.py)

    Shallow embedding of the data-refresh and render subsystem of
    [main.py]: the API key rotation of [SF511API], the alert filtering of
    [TransitDisplayDriver.fetch_alerts], the prediction parsing of
    [fetch_and_parse_predictions], the per-tick render state of
    [draw_text_scroll] and [draw_train_animation], and a small interleaving
    semantics for the lock-protected reads and writes of the shared stores.

    Python floats (the [time()] clock and arrival timestamps) are modelled as
    rationals [Q]; the rounding of float arithmetic is not modelled. *)

From Stdlib Require Import QArith Qround Lia ZArith Ascii Sorted.
From stdpp Require Import base list gmap strings pretty.

Local Open Scope string_scope.

(* ------------------------------------------------------------------ *)
(** ** Python helpers *)

(** [sep.join(xs)] *)
Definition py_join (sep : string) (xs : list string) : string :=
  String.concat sep xs.

(** [str(n)] for a Python [int]. *)
Definition py_str_int (n : Z) : string := pretty n.

(** [needle in hay] on Python strings: substring test. *)
Fixpoint py_str_in (needle hay : string) : bool :=
  String.prefix needle hay ||
  match hay with
  | EmptyString => false
  | String _ rest => py_str_in needle rest
  end.

(** Python's built-in [round(x)] on a float: nearest integer, ties to even. *)
Definition py_round (x : Q) : Z :=
  let f := Qfloor x in
  let d := (x - inject_Z f)%Q in
  if Qlt_le_dec d (1 # 2) then f
  else if Qeq_dec d (1 # 2) then (if Z.even f then f else f + 1)%Z
  else (f + 1)%Z.

(* ------------------------------------------------------------------ *)
(** ** [expected_times_to_display_str] (main.py, lines 292-299) *)

(** [max(0, floor((expected_time - now) / 60))] *)
Definition minutes_until (now expected_time : Q) : Z :=
  Z.max 0 (Qfloor ((expected_time - now) / 60)).

(** The static method reads the clock with [now = time()]; [now] is that
    reading. *)
Definition expected_times_to_display_str (now : Q) (expected_times : list Q)
  : string :=
  if Nat.eqb (length expected_times) 0 then "N/A"
  else
    let three_expected_times := take 3 expected_times in
    py_join "," (map (fun expected_time =>
                        py_str_int (minutes_until now expected_time))
                     three_expected_times).

(* ------------------------------------------------------------------ *)
(** ** Render-loop constants (main.py, [TransitDisplayDriver.__init__]) *)

Definition rgb_cols : Z := 64.            (* self.rgb_options.cols *)
Definition font_width : Z := 6.           (* self.font_width *)
Definition train_length : Z := 5.         (* self.train_length *)
Definition train_slowdown_factor : Z := 10.

(* ------------------------------------------------------------------ *)
(** ** [draw_text_scroll] (main.py, lines 265-290) *)

(** The offset returned by [draw_text_scroll] (the drawing calls before it
    do not touch the offset). *)
Definition draw_text_scroll (text : string) (fw : Z) (offset : Z) : Z :=
  if (offset <=? - fw * Z.of_nat (String.length text))%Z
  then rgb_cols
  else (offset - 1)%Z.

(** [draw_line_data] (lines 214-245): the offset it persists for the row. *)
Definition draw_line_data_offset (alert_str : string) (scroll_offset : Z) : Z :=
  if String.eqb alert_str "" then rgb_cols
  else draw_text_scroll alert_str font_width scroll_offset.

(** [k] render ticks of the scroll for a fixed text. *)
Fixpoint scroll_ticks (k : nat) (text : string) (offset : Z) : Z :=
  match k with
  | O => offset
  | S k' => scroll_ticks k' text (draw_text_scroll text font_width offset)
  end.

(* ------------------------------------------------------------------ *)
(** ** [draw_train_animation] (main.py, lines 247-263) *)

Inductive color := train_default_color | train_updated_color.

Record train_state := {
  train_color : color;
  train_pos : Z;
  train_slowdown_counter : Z
}.

(** One call of [draw_train_animation]: [now] is [time()] and
    [last_updated] is [self.prediction_data_last_updated];
    [train_stale_secs] is the constructor argument (default 120). *)
Definition draw_train_animation (train_stale_secs : Z) (now last_updated : Q)
    (st : train_state) : train_state :=
  let secs_last_updated := Z.max 0 (py_round (now - last_updated)) in
  let counter := ((train_slowdown_counter st + 1) mod train_slowdown_factor)%Z in
  if (counter =? 0)%Z then
    if (train_stale_secs <=? secs_last_updated)%Z then
      {| train_color := train_default_color;
         train_pos := if (train_pos st =? 34)%Z then 35 else 34;
         train_slowdown_counter := counter |}
    else
      {| train_color := if (secs_last_updated <? 2)%Z
                        then train_updated_color else train_default_color;
         train_pos := ((train_pos st + 1) mod (65 + train_length))%Z;
         train_slowdown_counter := counter |}
  else
    {| train_color := train_color st;
       train_pos := train_pos st;
       train_slowdown_counter := counter |}.

(* ------------------------------------------------------------------ *)
(** ** Configuration and alert payloads *)

(** [config.Stop]: the pair [(line, stop_code)]. *)
Record Stop := { line : string; stop_code : string }.

(** The JSON shape read by [fetch_alerts]: [period['Start']],
    [period['End']], [ie['StopId']] (the key may be absent),
    [alert['HeaderText']['Translations']] with [t['Text']] and
    [t['Language']]. *)
Record Period := { Start : Q; End : Q }.
Record InformedEntity := { StopId : option string }.
Record Translation := { Text : string; Language : string }.
Record Alert := {
  ActivePeriods : list Period;
  InformedEntities : list InformedEntity;
  HeaderText_Translations : list Translation
}.

(** A dict comprehension [{k: v for ...}]: later keys overwrite earlier
    ones. *)
Definition py_dict_of_list {V} (kvs : list (string * V)) : gmap string V :=
  fold_left (fun m kv => <[kv.1 := kv.2]> m) kvs ∅.

(** [[ie['StopId'] for ie in alert['InformedEntities'] if 'StopId' in ie]] *)
Definition informed_stop_ids (alert : Alert) : list string :=
  omap StopId (InformedEntities alert).

(** [x in xs] on a list of strings. *)
Definition py_list_in (x : string) (xs : list string) : bool :=
  existsb (String.eqb x) xs.

(** The condition of the first comprehension of [fetch_alerts]
    (lines 315-319). *)
Definition alert_filter (now : Q) (stop : Stop) (alert : Alert) : bool :=
  existsb (fun period => Qle_bool (Start period) now && Qle_bool now (End period))
          (ActivePeriods alert)
  && py_list_in (stop_code stop) (informed_stop_ids alert).

(** [stop_to_alert_data] (lines 314-320); [alerts] is
    [[entity['Alert'] for entity in alerts_raw['Entities']]]. *)
Definition stop_to_alert_data (stops : list Stop) (now : Q) (alerts : list Alert)
  : gmap string (list (list Translation)) :=
  py_dict_of_list
    (map (fun stop =>
            (line stop,
             map HeaderText_Translations (filter (alert_filter now stop) alerts)))
         stops).

(** [next((t['Text'] for t in alert if t['Language'] == 'en' and not
    any(ignored_text in t['Text'] for ignored_text in ignored)), None)] *)
Definition english_text (ignored_alert_text : list string)
    (alert : list Translation) : option string :=
  option_map Text
    (List.find (fun t => String.eqb (Language t) "en"
                         && negb (existsb (fun ignored_text =>
                                             py_str_in ignored_text (Text t))
                                          ignored_alert_text))
               alert).

(** The alert map computed by [fetch_alerts] (lines 311-329), before it is
    stored under [alert_data_lock]. *)
Definition fetch_alerts_result (stops : list Stop) (ignored_alert_text : list string)
    (now : Q) (alerts : list Alert) : gmap string (list string) :=
  let stop_to_alert_strs :=
    fmap (fun alert_data => map (english_text ignored_alert_text) alert_data)
         (stop_to_alert_data stops now alerts) in
  fmap (fun alert_str => omap (fun a => a) alert_str) stop_to_alert_strs.

(* ------------------------------------------------------------------ *)
(** ** [SF511API] key rotation (main.py, lines 15-30) *)

(** Exceptions raised by the modelled Python code. *)
Inductive py_exc := IndexError | ZeroDivisionError | ValueError.

Record SF511API := {
  api_key : list string;
  api_key_counter : nat;
  agency : string
}.

(** [SF511API.__init__]: stores the keys, no check. *)
Definition SF511API_init (api_keys : list string) (agency' : string) : SF511API :=
  {| api_key := api_keys; api_key_counter := 0; agency := agency' |}.

(** [next_api_key]: the body runs under [api_key_lock], so it is one atomic
    step. [self.api_key[c]] raises [IndexError] out of range; the modulo
    raises [ZeroDivisionError] on an empty list. *)
Definition next_api_key (self : SF511API) : SF511API * string + py_exc :=
  match api_key self !! api_key_counter self with
  | None => inr IndexError
  | Some k =>
      match length (api_key self) with
      | O => inr ZeroDivisionError
      | n => inl ({| api_key := api_key self;
                     api_key_counter := (api_key_counter self + 1) mod n;
                     agency := agency self |}, k)
      end
  end.

(** [k] successive calls, collecting the returned keys. *)
Fixpoint next_api_keys (k : nat) (self : SF511API) : SF511API * list string + py_exc :=
  match k with
  | O => inl (self, [])
  | S k' =>
      match next_api_key self with
      | inr e => inr e
      | inl (self', key) =>
          match next_api_keys k' self' with
          | inr e => inr e
          | inl (self'', keys) => inl (self'', key :: keys)
          end
      end
  end.

(* ------------------------------------------------------------------ *)
(** ** [fetch_and_parse_predictions] (main.py, lines 354-362) *)

(** A [MonitoredStopVisit] entry: its
    [['MonitoredVehicleJourney']['MonitoredCall']['ExpectedArrivalTime']],
    which may be JSON [null]. *)
Record MonitoredStopVisit := { ExpectedArrivalTime : option string }.

(** Decimal digits of a string, [None] on any other character. *)
Definition parse_digits (s : string) : option Z :=
  foldl (fun acc c =>
           match acc with
           | None => None
           | Some n =>
               let k := Z.of_nat (Ascii.nat_of_ascii c) in
               if (48 <=? k)%Z && (k <=? 57)%Z then Some (10 * n + (k - 48))%Z
               else None
           end)
        (Some 0%Z) (String.list_ascii_of_string s).

(** Days since 1970-01-01 of a proleptic Gregorian date. *)
Definition days_from_civil (y m d : Z) : Z :=
  let y := if (m <=? 2)%Z then (y - 1)%Z else y in
  let era := (y / 400)%Z in
  let yoe := (y - era * 400)%Z in
  let mp := if (2 <? m)%Z then (m - 3)%Z else (m + 9)%Z in
  let doy := ((153 * mp + 2) / 5 + d - 1)%Z in
  let doe := (yoe * 365 + yoe / 4 - yoe / 100 + doy)%Z in
  (era * 146097 + doe - 719468)%Z.

Definition char_at (s : string) (i : nat) : option Ascii.ascii := String.get i s.

(** [datetime.fromisoformat(s).timestamp()] for the form the upstream API
    sends, ["YYYY-MM-DDTHH:MM:SSZ"] (UTC); [None] is the [ValueError] of a
    string outside that form. *)
Definition iso_utc_timestamp (s : string) : option Q :=
  if negb (Nat.eqb (String.length s) 20) then None else
  if negb (bool_decide (char_at s 4 = Some "-"%char /\ char_at s 7 = Some "-"%char
                        /\ char_at s 10 = Some "T"%char /\ char_at s 13 = Some ":"%char
                        /\ char_at s 16 = Some ":"%char /\ char_at s 19 = Some "Z"%char))
  then None else
  match parse_digits (String.substring 0 4 s), parse_digits (String.substring 5 2 s),
        parse_digits (String.substring 8 2 s), parse_digits (String.substring 11 2 s),
        parse_digits (String.substring 14 2 s), parse_digits (String.substring 17 2 s) with
  | Some y, Some mo, Some d, Some h, Some mi, Some sec =>
      if (1 <=? mo)%Z && (mo <=? 12)%Z && (1 <=? d)%Z && (d <=? 31)%Z
         && (h <? 24)%Z && (mi <? 60)%Z && (sec <? 60)%Z
      then Some (inject_Z (days_from_civil y mo d * 86400 + h * 3600 + mi * 60 + sec))
      else None
  | _, _, _, _, _, _ => None
  end.

Section FetchAndParse.

(** The timestamp parser [datetime.fromisoformat(...).timestamp()];
    [None] is a raised [ValueError]. *)
Variable fromisoformat_timestamp : string -> option Q.

(** [expected_times]: the list comprehension of lines 356-359, in payload
    order; a [ValueError] aborts the call. *)
Definition parse_expected_times (visits : list MonitoredStopVisit)
  : list Q + py_exc :=
  let expected_visit_time_strs := map ExpectedArrivalTime visits in
  foldr (fun time_str acc =>
           match time_str with
           | None => acc
           | Some s =>
               match fromisoformat_timestamp s, acc with
               | None, _ => inr ValueError
               | Some t, inl ts => inl (t :: ts)
               | Some _, inr e => inr e
               end
           end)
        (inl []) expected_visit_time_strs.

(** The store update [self.prediction_times[line] = expected_times]. *)
Definition fetch_and_parse_predictions (line' : string)
    (visits : list MonitoredStopVisit) (prediction_times : gmap string (list Q))
  : gmap string (list Q) + py_exc :=
  match parse_expected_times visits with
  | inr e => inr e
  | inl expected_times => inl (<[line' := expected_times]> prediction_times)
  end.

End FetchAndParse.

(* ------------------------------------------------------------------ *)
(** ** Threads, locks and the shared stores *)

(** The threads of [run]: the render loop (main thread), the alert polling
    thread, and the per-stop workers of [fetch_all_predictions]. *)
Inductive tid := RenderThread | AlertsThread | FetchThread (i : nat).

Definition tid_eqb (a b : tid) : bool :=
  match a, b with
  | RenderThread, RenderThread => true
  | AlertsThread, AlertsThread => true
  | FetchThread i, FetchThread j => Nat.eqb i j
  | _, _ => false
  end.

(** The [threading.Lock] objects of the driver. *)
Inductive lock_id :=
  | alert_data_lock
  | prediction_data_last_updated_lock
  | prediction_time_lock (line' : string).

Definition lock_eqb (a b : lock_id) : bool :=
  match a, b with
  | alert_data_lock, alert_data_lock => true
  | prediction_data_last_updated_lock, prediction_data_last_updated_lock => true
  | prediction_time_lock x, prediction_time_lock y => String.eqb x y
  | _, _ => false
  end.

(** Python truthiness of a [threading.Lock]: it defines neither [__bool__]
    nor [__len__], so it is always true. *)
Definition lock_truthy (l : lock_id) : bool := true.

(** [a and b] on two lock objects: [b] when [a] is truthy, else [a]. *)
Definition py_and_lock (a b : lock_id) : lock_id :=
  if lock_truthy a then b else a.

(** Atomic actions on the shared state. [WriteAlerts m] is the attribute
    assignment [self.alerts = m]; [ReadAlerts l] reads [self.alerts[l]];
    [WritePredictions l v] is [self.prediction_times[l] = v]. *)
Inductive act :=
  | Acquire (l : lock_id)
  | Release (l : lock_id)
  | WriteAlertStamp (t : Q)
  | WriteAlerts (m : gmap string (list string))
  | ReadAlerts (line' : string)
  | WritePredictions (line' : string) (v : list Q)
  | ReadPredictions (line' : string).

(** What a read returns ([None]: the [KeyError] of a missing line). *)
Inductive obs :=
  | ObsAlerts (line' : string) (v : option (list string))
  | ObsPredictions (line' : string) (v : option (list Q)).

Record world := {
  owner : lock_id -> option tid;
  alerts : gmap string (list string);
  alert_data_last_updated : Q;
  prediction_times : gmap string (list Q);
  observed : list (tid * obs);
  program : tid -> list act
}.

Definition set_owner (w : world) (l : lock_id) (o : option tid) : world :=
  {| owner := fun l' => if lock_eqb l' l then o else owner w l';
     alerts := alerts w; alert_data_last_updated := alert_data_last_updated w;
     prediction_times := prediction_times w; observed := observed w;
     program := program w |}.

Definition set_program (w : world) (t : tid) (rest : list act) : world :=
  {| owner := owner w; alerts := alerts w;
     alert_data_last_updated := alert_data_last_updated w;
     prediction_times := prediction_times w; observed := observed w;
     program := fun t' => if tid_eqb t' t then rest else program w t' |}.

(** One atomic action of thread [t]; [None] when [t] has finished or is
    blocked ([Acquire] of a held lock, [Release] of a free one). *)
Definition step (w : world) (t : tid) : option world :=
  match program w t with
  | [] => None
  | a :: rest =>
      let w' := set_program w t rest in
      match a with
      | Acquire l =>
          match owner w l with
          | None => Some (set_owner w' l (Some t))
          | Some _ => None
          end
      | Release l =>
          match owner w l with
          | Some _ => Some (set_owner w' l None)
          | None => None
          end
      | WriteAlertStamp ts =>
          Some {| owner := owner w'; alerts := alerts w';
                  alert_data_last_updated := ts;
                  prediction_times := prediction_times w';
                  observed := observed w'; program := program w' |}
      | WriteAlerts m =>
          Some {| owner := owner w'; alerts := m;
                  alert_data_last_updated := alert_data_last_updated w';
                  prediction_times := prediction_times w';
                  observed := observed w'; program := program w' |}
      | ReadAlerts l =>
          Some {| owner := owner w'; alerts := alerts w';
                  alert_data_last_updated := alert_data_last_updated w';
                  prediction_times := prediction_times w';
                  observed := observed w' ++ [(t, ObsAlerts l (alerts w' !! l))];
                  program := program w' |}
      | WritePredictions l v =>
          Some {| owner := owner w'; alerts := alerts w';
                  alert_data_last_updated := alert_data_last_updated w';
                  prediction_times := <[l := v]> (prediction_times w');
                  observed := observed w'; program := program w' |}
      | ReadPredictions l =>
          Some {| owner := owner w'; alerts := alerts w';
                  alert_data_last_updated := alert_data_last_updated w';
                  prediction_times := prediction_times w';
                  observed := observed w' ++
                              [(t, ObsPredictions l (prediction_times w' !! l))];
                  program := program w' |}
      end
  end.

(** Run a schedule: the thread chosen at each step. *)
Fixpoint run (w : world) (sched : list tid) : option world :=
  match sched with
  | [] => Some w
  | t :: sched' =>
      match step w t with
      | None => None
      | Some w' => run w' sched'
      end
  end.

(** The critical section of [get_alert_strs] (lines 199-205): the string
    joins are local to the thread. *)
Definition get_alert_strs_prog (line0 line1 : string) : list act :=
  [Acquire alert_data_lock; ReadAlerts line0; ReadAlerts line1;
   Release alert_data_lock].

(** The critical section closing [fetch_alerts] (lines 331-333), storing the
    map [m] computed before it at time [t]. *)
Definition fetch_alerts_commit (m : gmap string (list string)) (t : Q) : list act :=
  [Acquire alert_data_lock; WriteAlertStamp t; WriteAlerts m;
   Release alert_data_lock].

(** The alert polling thread: one commit per completed cycle. *)
Definition alerts_thread_prog (cycles : list (gmap string (list string) * Q))
  : list act :=
  concat (map (fun c => fetch_alerts_commit c.1 c.2) cycles).

(** The critical section of [get_prediction_strs] (lines 207-212):
    [with lock0 and lock1:] enters the context manager of the value of the
    expression [lock0 and lock1]. *)
Definition get_prediction_strs_prog (line0 line1 : string) : list act :=
  let with_lock := py_and_lock (prediction_time_lock line0)
                               (prediction_time_lock line1) in
  [Acquire with_lock; ReadPredictions line0; ReadPredictions line1;
   Release with_lock].

(** The store step of [fetch_and_parse_predictions] (lines 361-362). *)
Definition fetch_and_parse_commit (line' : string) (v : list Q) : list act :=
  [Acquire (prediction_time_lock line'); WritePredictions line' v;
   Release (prediction_time_lock line')].

(** The world at the start of [run]: no lock held, the stores as the
    constructor leaves them ([{line: [] for line, _ in stops}]). *)
Definition init_world (stops : list Stop) (progs : tid -> list act) : world :=
  {| owner := fun _ => None;
     alerts := py_dict_of_list (map (fun s => (line s, [])) stops);
     alert_data_last_updated := 0;
     prediction_times := py_dict_of_list (map (fun s => (line s, [])) stops);
     observed := [];
     program := progs |}.

(* ------------------------------------------------------------------ *)
(** ** [SF511API.fetch_internal] and the two request builders
       (main.py, lines 32-88) *)

(** One HTTP attempt: the url, the query parameters and the timeout passed to
    [requests.get] (the headers are always the empty dict). *)
Definition attempt : Type := (string * list (string * string) * Z)%type.

(** [fetch_internal(url, query_params, headers, timeout, backoff)]: the
    [while True] loop, fed with the outcome of each successive
    [requests.get] ([Some body] on success, [None] on a
    [requests.RequestException]). It returns the attempts made, the
    [sleep(backoff)] durations and the body; [None] as body means the loop is
    still retrying after the given outcomes. *)
Fixpoint fetch_internal {A} (url : string) (query_params : list (string * string))
    (timeout backoff : Z) (responses : list (option A))
  : list attempt * list Z * option A :=
  match responses with
  | [] => ([], [], None)
  | r :: rest =>
      match r with
      | Some body => ([(url, query_params, timeout)], [], Some body)
      | None =>
          let '(atts, sleeps, res) :=
            fetch_internal url query_params timeout (backoff * 2) rest in
          ((url, query_params, timeout) :: atts, backoff :: sleeps, res)
      end
  end.

(** [SF511API.fetch_predictions(stop_code)]: one key, then the retry loop
    with timeout 5 and backoff 10. *)
Definition SF511API_fetch_predictions {A} (self : SF511API) (stop_code' : string)
    (responses : list (option A))
  : SF511API * (list attempt * list Z * option A) + py_exc :=
  match next_api_key self with
  | inr e => inr e
  | inl (self', key) =>
      let query_params := [("api_key", key); ("agency", agency self);
                           ("stopCode", stop_code'); ("format", "json")] in
      inl (self', fetch_internal "http://api.511.org/transit/StopMonitoring"
                                 query_params 5 10 responses)
  end.

(** [SF511API.fetch_alerts()]: one key, then the retry loop with timeout 10
    and backoff 20. *)
Definition SF511API_fetch_alerts {A} (self : SF511API) (responses : list (option A))
  : SF511API * (list attempt * list Z * option A) + py_exc :=
  match next_api_key self with
  | inr e => inr e
  | inl (self', key) =>
      let query_params := [("api_key", key); ("agency", agency self);
                           ("format", "json")] in
      inl (self', fetch_internal "http://api.511.org/transit/servicealerts"
                                 query_params 10 20 responses)
  end.

(* ------------------------------------------------------------------ *)
(** ** Draw commands of a frame (main.py, lines 185-290) *)

(** The [graphics.Color] values of the driver. *)
Inductive pen :=
  | top_line_color | bottom_line_color | line_text_color | predictions_color
  | erase_color                 (* graphics.Color(0, 0, 0) *)
  | train_pen (c : color).

(** The [graphics.DrawText], [DrawLine] and [DrawCircle] calls. *)
Inductive draw_cmd :=
  | DrawText (x y : Z) (p : pen) (text : string)
  | DrawLine (x0 y0 x1 y1 : Z) (p : pen)
  | DrawCircle (x y r : Z) (p : pen).

Definition font_height : Z := 12.          (* fonts/clR6x12.bdf *)
Definition line_letter_x : Z := 4.
Definition top_y : Z := 12.
Definition bottom_y : Z := 26.
Definition circle_offset_x : Z := 2.
Definition circle_offset_y : Z := -4.
Definition circle_radius : Z := 5.
Definition data_text_x : Z := 15.
Definition data_text_x_erase_offset : Z := -3.

(** Python [range(n)]. *)
Definition py_range (n : Z) : list Z := map Z.of_nat (seq 0 (Z.to_nat n)).

(** [draw_text_scroll]: its draw calls and the offset it returns. *)
Definition draw_text_scroll_cmds (text : string) (fw : Z) (p : pen)
    (x y offset x_erase_offset : Z) : list draw_cmd * Z :=
  (DrawText (x + offset) y p text
   :: map (fun i => DrawLine i (y + 2) i (y - font_height) erase_color)
          (py_range (x + x_erase_offset)),
   draw_text_scroll text fw offset).

(** [draw_line_data] (lines 214-245): its draw calls and the offset it
    returns. *)
Definition draw_line_data (y_pos : Z) (line_letter : string) (line_color : pen)
    (predictions_str alert_str : string) (scroll_offset : Z)
  : list draw_cmd * Z :=
  let '(cmds, offset) :=
    if negb (String.eqb alert_str "")
    then draw_text_scroll_cmds alert_str font_width predictions_color data_text_x
                               y_pos scroll_offset data_text_x_erase_offset
    else ([DrawText data_text_x y_pos predictions_color predictions_str], rgb_cols) in
  ((cmds ++ [DrawCircle (line_letter_x + circle_offset_x) (y_pos + circle_offset_y)
                        circle_radius line_color;
             DrawText line_letter_x y_pos line_text_color line_letter])%list, offset).

(** The [DrawLine] of [draw_train_animation] (line 263). *)
Definition train_cmd (st : train_state) : draw_cmd :=
  DrawLine (train_pos st - train_length) 0 (train_pos st) 0 (train_pen (train_color st)).

(** [get_prediction_strs] (lines 207-212), as a value: [(bottom, top)];
    [None] is the [IndexError] of fewer than two stops or the [KeyError] of
    a missing line. Each call of [expected_times_to_display_str] reads the
    clock: [now_top] and [now_bottom]. *)
Definition get_prediction_strs (now_top now_bottom : Q) (stops : list Stop)
    (prediction_times : gmap string (list Q)) : option (string * string) :=
  match stops with
  | s0 :: s1 :: _ =>
      match prediction_times !! line s0, prediction_times !! line s1 with
      | Some t0, Some t1 =>
          Some (expected_times_to_display_str now_bottom t1,
                expected_times_to_display_str now_top t0)
      | _, _ => None
      end
  | _ => None
  end.

(** [get_alert_strs] (lines 199-205), as a value: [(bottom, top)]. *)
Definition get_alert_strs (stops : list Stop) (alerts : gmap string (list string))
  : option (string * string) :=
  match stops with
  | s0 :: s1 :: _ =>
      match alerts !! line s0, alerts !! line s1 with
      | Some a0, Some a1 => Some (py_join " / " a1, py_join " / " a0)
      | _, _ => None
      end
  | _ => None
  end.

(** The render state persisted across frames by [run]. *)
Record frame_state := {
  top_text_scroll_offset : Z;
  bottom_text_scroll_offset : Z;
  train : train_state
}.

(** One iteration of the [while True] loop of [run] (lines 185-197), after
    [canvas.Clear()] and before [SwapOnVSync]: the draw calls and the new
    render state. [now_top], [now_bottom] and [now_train] are the three
    clock reads of the frame. *)
Definition render_frame (stops : list Stop) (train_stale_secs : Z)
    (now_top now_bottom now_train prediction_data_last_updated : Q)
    (prediction_times : gmap string (list Q)) (alerts : gmap string (list string))
    (fs : frame_state) : option (list draw_cmd * frame_state) :=
  match stops, get_prediction_strs now_top now_bottom stops prediction_times,
        get_alert_strs stops alerts with
  | s0 :: s1 :: _, Some (bottom_str, top_str), Some (bottom_alert_str, top_alert_str) =>
      let '(top_cmds, top_offset) :=
        draw_line_data top_y (line s0) top_line_color top_str top_alert_str
                       (top_text_scroll_offset fs) in
      let '(bottom_cmds, bottom_offset) :=
        draw_line_data bottom_y (line s1) bottom_line_color bottom_str
                       bottom_alert_str (bottom_text_scroll_offset fs) in
      let st := draw_train_animation train_stale_secs now_train
                                     prediction_data_last_updated (train fs) in
      Some ((top_cmds ++ bottom_cmds ++ [train_cmd st])%list,
            {| top_text_scroll_offset := top_offset;
               bottom_text_scroll_offset := bottom_offset;
               train := st |})
  | _, _, _ => None
  end.

(** The train state over successive frames of [run]'s loop, [nows] being
    the clock read by [draw_train_animation] in each frame. *)
Definition train_frames (train_stale_secs : Z) (prediction_data_last_updated : Q)
    (nows : list Q) (st : train_state) : train_state :=
  fold_left (fun st now => draw_train_animation train_stale_secs now
                                                prediction_data_last_updated st)
            nows st.

(** The stores and render state set up by [TransitDisplayDriver.__init__]
    (lines 100-163): [{line: [] for line, _ in stops}] for both stores, the
    scroll offsets at [rgb_options.cols], the train at position 0. *)
Definition initial_prediction_times (stops : list Stop) : gmap string (list Q) :=
  py_dict_of_list (map (fun stop => (line stop, [])) stops).

Definition initial_alerts (stops : list Stop) : gmap string (list string) :=
  py_dict_of_list (map (fun stop => (line stop, [])) stops).

Definition initial_frame_state : frame_state :=
  {| top_text_scroll_offset := rgb_cols;
     bottom_text_scroll_offset := rgb_cols;
     train := {| train_color := train_default_color;
                 train_pos := 0;
                 train_slowdown_counter := 0 |} |}.

(* ------------------------------------------------------------------ *)
(** ** [fetch_all_predictions] (main.py, lines 338-352) *)

(** The store step of one worker thread of [fetch_all_predictions]: on an
    exception the thread ends without storing anything ([threading] prints
    the traceback and [join] still returns). *)
Definition prediction_worker_commit (fromisoformat_timestamp : string -> option Q)
    (prediction_times : gmap string (list Q)) (job : string * list MonitoredStopVisit)
  : gmap string (list Q) :=
  match fetch_and_parse_predictions fromisoformat_timestamp job.1 job.2 prediction_times with
  | inl prediction_times' => prediction_times'
  | inr _ => prediction_times
  end.

(** [fetch_all_predictions]: the workers' stores, in the order in which they
    take their row locks ([jobs]: each stop's line and payload), then after
    the joins the stamp [prediction_data_last_updated = time()] ([now]). *)
Definition fetch_all_predictions (fromisoformat_timestamp : string -> option Q)
    (jobs : list (string * list MonitoredStopVisit))
    (prediction_times : gmap string (list Q)) (now : Q)
  : gmap string (list Q) * Q :=
  (foldl (prediction_worker_commit fromisoformat_timestamp) prediction_times jobs, now).

(** The store contents the render loop can meet: the stores of
    [__init__], then any sequence of rounds of [fetch_all_predictions] (the
    only writer of [prediction_times]) and of [fetch_alerts] (the only
    writer of [alerts]). *)
Inductive stores_reachable (fromisoformat_timestamp : string -> option Q)
    (stops : list Stop) (ignored_alert_text : list string)
  : gmap string (list Q) -> gmap string (list string) -> Prop :=
  | stores_init :
      stores_reachable fromisoformat_timestamp stops ignored_alert_text
                       (initial_prediction_times stops) (initial_alerts stops)
  | stores_predictions prediction_times alerts' jobs now :
      stores_reachable fromisoformat_timestamp stops ignored_alert_text
                       prediction_times alerts' ->
      stores_reachable fromisoformat_timestamp stops ignored_alert_text
        (fetch_all_predictions fromisoformat_timestamp jobs prediction_times now).1
        alerts'
  | stores_alerts prediction_times alerts' now raw_alerts :
      stores_reachable fromisoformat_timestamp stops ignored_alert_text
                       prediction_times alerts' ->
      stores_reachable fromisoformat_timestamp stops ignored_alert_text
        prediction_times (fetch_alerts_result stops ignored_alert_text now raw_alerts).

(* ------------------------------------------------------------------ *)
(** ** Concrete scenarios used by the properties *)

(** An alert active on [100, 200] at the stop [code]. *)
Definition window_alert (code : string) : Alert :=
  {| ActivePeriods := [{| Start := 100; End := 200 |}];
     InformedEntities := [{| StopId := Some code |}];
     HeaderText_Translations := [] |}.

(** An alert active at the stop [15731] whose first English translation
    mentions an elevator and whose second does not. *)
Definition two_english_alert : Alert :=
  {| ActivePeriods := [{| Start := 0; End := 100 |}];
     InformedEntities := [{| StopId := Some "15731" |}];
     HeaderText_Translations :=
       [{| Text := "Elevator outage at Church"; Language := "en" |};
        {| Text := "Expect delays"; Language := "en" |}] |}.

Definition arrival_visits : list MonitoredStopVisit :=
  [{| ExpectedArrivalTime := Some "2024-05-01T17:10:00Z" |};
   {| ExpectedArrivalTime := None |};
   {| ExpectedArrivalTime := Some "2024-05-01T17:05:00Z" |}].

(** The two stops of the reference configuration. *)
Definition stops_NJ : list Stop :=
  [{| line := "N"; stop_code := "15731" |}; {| line := "J"; stop_code := "14006" |}].

(** The render thread in [get_prediction_strs] while the worker for the
    stop of line N stores a new prediction list. *)
Definition prediction_race_progs (t : tid) : list act :=
  match t with
  | RenderThread => get_prediction_strs_prog "N" "J"
  | FetchThread 0 => fetch_and_parse_commit "N" [1714583100]%Q
  | _ => []
  end.

(** The render thread in [get_alert_strs] alongside the alert polling
    thread committing the maps of its completed cycles. *)
Definition alert_progs (line0 line1 : string)
    (cycles : list (gmap string (list string) * Q)) (t : tid) : list act :=
  match t with
  | RenderThread => get_alert_strs_prog line0 line1
  | AlertsThread => alerts_thread_prog cycles
  | FetchThread _ => []
  end.

Definition alert_cycles_ex : list (gmap string (list string) * Q) :=
  [(<["N" := ["Elevator outage at Church"]]> (<["J" := []]> ∅), 1714583100%Q);
   (<["N" := []]> (<["J" := ["Expect delays"]]> ∅), 1714583160%Q)].

Definition alert_sched_ex : list tid :=
  [AlertsThread; AlertsThread; AlertsThread; AlertsThread;
   RenderThread; RenderThread; RenderThread; RenderThread;
   AlertsThread; AlertsThread; AlertsThread; AlertsThread].

(** The key rotator over [keys] with its counter at [c]. *)
Definition key_state (keys : list string) (agency' : string) (c : nat) : SF511API :=
  {| api_key := keys; api_key_counter := c; agency := agency' |}.

(* ------------------------------------------------------------------ *)
(** ** The invariant of the alert store *)

Section AlertInvariant.

Variables line0 line1 : string.
Variable cycles : list (gmap string (list string) * Q).
Variable alerts0 : gmap string (list string).

Definition alert_maps : list (gmap string (list string)) := alerts0 :: map fst cycles.

Definition alert_pair (m : gmap string (list string)) : list (tid * obs) :=
  [(RenderThread, ObsAlerts line0 (m !! line0));
   (RenderThread, ObsAlerts line1 (m !! line1))].

Definition writer_inv (w : world) : Prop :=
  exists cs, incl cs cycles /\
  ((program w AlertsThread = alerts_thread_prog cs /\
    owner w alert_data_lock <> Some AlertsThread) \/
   (exists m t, In (m, t) cycles /\
      program w AlertsThread =
        WriteAlertStamp t :: WriteAlerts m :: Release alert_data_lock
        :: alerts_thread_prog cs /\
      owner w alert_data_lock = Some AlertsThread) \/
   (exists m, In m (map fst cycles) /\
      program w AlertsThread =
        WriteAlerts m :: Release alert_data_lock :: alerts_thread_prog cs /\
      owner w alert_data_lock = Some AlertsThread) \/
   (program w AlertsThread = Release alert_data_lock :: alerts_thread_prog cs /\
    owner w alert_data_lock = Some AlertsThread)).

Definition reader_inv (w : world) : Prop :=
  (program w RenderThread = get_alert_strs_prog line0 line1 /\ observed w = [] /\
   owner w alert_data_lock <> Some RenderThread) \/
  (program w RenderThread =
     [ReadAlerts line0; ReadAlerts line1; Release alert_data_lock] /\
   observed w = [] /\ owner w alert_data_lock = Some RenderThread) \/
  (program w RenderThread = [ReadAlerts line1; Release alert_data_lock] /\
   observed w = [(RenderThread, ObsAlerts line0 (alerts w !! line0))] /\
   owner w alert_data_lock = Some RenderThread) \/
  (program w RenderThread = [Release alert_data_lock] /\
   observed w = alert_pair (alerts w) /\
   owner w alert_data_lock = Some RenderThread) \/
  (program w RenderThread = [] /\
   exists m, In m alert_maps /\ observed w = alert_pair m).

Definition alert_inv (w : world) : Prop :=
  In (alerts w) alert_maps /\ writer_inv w /\ reader_inv w /\
  (forall i, program w (FetchThread i) = []).

End AlertInvariant.

(* ================================================================== *)
(** * Properties *)

(** ** The prediction display string *)

Lemma minutes_until_nonneg (now e : Q) : (0 <= minutes_until now e)%Z.
Proof. unfold minutes_until. lia. Qed.

Lemma minutes_until_past (now e : Q) : (e <= now)%Q -> minutes_until now e = 0%Z.
Proof.
  intros H. unfold minutes_until.
  assert (Hle : ((e - now) / 60 <= 0)%Q).
  { apply Qle_shift_div_r; [reflexivity|]. rewrite Qmult_0_l.
    apply (Qplus_le_l _ _ now). ring_simplify. exact H. }
  apply Qfloor_resp_le in Hle. change (Qfloor 0) with 0%Z in Hle. lia.
Qed.

Lemma minutes_until_future (now e : Q) :
  (now < e)%Q -> minutes_until now e = Qfloor ((e - now) / 60).
Proof.
  intros H. unfold minutes_until.
  assert (Hle : (0 <= (e - now) / 60)%Q).
  { apply Qle_shift_div_l; [reflexivity|]. rewrite Qmult_0_l.
    apply (Qplus_le_l _ _ now). ring_simplify. apply Qlt_le_weak, H. }
  apply Qfloor_resp_le in Hle. change (Qfloor 0) with 0%Z in Hle. lia.
Qed.

Lemma minutes_until_shift (now : Q) (d : Q) :
  minutes_until now (now + d) = Z.max 0 (Qfloor (d / 60)).
Proof.
  unfold minutes_until. f_equal. apply Qfloor_comp.
  unfold Qdiv. ring.
Qed.

(** Claim C1: the display string of a prediction list is ["N/A"] when it is
    empty, else the comma-joined [max(0, floor((t - now)/60))] of its first
    three entries; these minutes are never negative, are 0 for arrivals at
    or before [now] and the floor otherwise; for every [now], predictions
    [now+125; now+305; now+650] give ["2,5,10"]. *)
Theorem expected_times_to_display_str_spec :
  (forall (now : Q) (expected_times : list Q),
      expected_times_to_display_str now expected_times =
      match expected_times with
      | [] => "N/A"
      | _ => py_join "," (map (fun e => py_str_int (minutes_until now e))
                              (take 3 expected_times))
      end) /\
  (forall now e : Q,
      (0 <= minutes_until now e)%Z /\
      ((e <= now)%Q -> minutes_until now e = 0%Z) /\
      ((now < e)%Q -> minutes_until now e = Qfloor ((e - now) / 60))) /\
  (forall now : Q,
      expected_times_to_display_str now [now + 125; now + 305; now + 650]%Q
      = "2,5,10") /\
  (forall now : Q, expected_times_to_display_str now [] = "N/A").
Proof.
  split; [|split; [|split]].
  - intros now [|e l]; reflexivity.
  - intros now e. split; [apply minutes_until_nonneg|].
    split; [apply minutes_until_past|apply minutes_until_future].
  - intros now. unfold expected_times_to_display_str. simpl.
    rewrite !minutes_until_shift. vm_compute. reflexivity.
  - reflexivity.
Qed.

(** ** The alert scroll offset *)

Lemma scroll_ticks_add (a b : nat) (text : string) (o : Z) :
  scroll_ticks (a + b) text o = scroll_ticks b text (scroll_ticks a text o).
Proof. revert o. induction a as [|a IH]; intros o; simpl; auto. Qed.

Lemma scroll_ticks_decrement (k : nat) (text : string) (o : Z) :
  (- font_width * Z.of_nat (String.length text) <= o - Z.of_nat k)%Z ->
  scroll_ticks k text o = (o - Z.of_nat k)%Z.
Proof.
  revert o. induction k as [|k IH]; intros o H; simpl; [lia|].
  unfold draw_text_scroll.
  destruct (Z.leb_spec o (- font_width * Z.of_nat (String.length text))); [lia|].
  rewrite IH; lia.
Qed.

Lemma scroll_full_cycle (text : string) :
  scroll_ticks (65 + 6 * String.length text) text rgb_cols = rgb_cols.
Proof.
  replace (65 + 6 * String.length text)%nat
    with ((64 + 6 * String.length text) + 1)%nat by lia.
  rewrite scroll_ticks_add, (scroll_ticks_decrement (64 + 6 * String.length text)).
  - cbn [scroll_ticks]. unfold draw_text_scroll.
    match goal with |- context [Z.leb ?a ?b] => destruct (Z.leb_spec a b) end;
      [reflexivity|]. unfold rgb_cols, font_width in *. lia.
  - unfold rgb_cols, font_width. lia.
Qed.

(** Claim C2, as the spec states it: the offset is back at 64 after
    [64 + L] ticks. It fails: after [64 + L] ticks the offset is [-L]. *)
Lemma scroll_cycle_64_plus_L_counterexample :
  scroll_ticks (64 + 6 * String.length "A") "A" rgb_cols = (-6)%Z /\
  scroll_ticks (64 + 6 * String.length "A") "A" rgb_cols <> rgb_cols.
Proof. vm_compute. split; [reflexivity|discriminate]. Qed.

(** Claim C2 (amended): with [L = font_width * len(text)], each tick resets
    the offset to 64 when it is [<= -L] and otherwise decrements it; from 64
    the offset after [k <= 64 + L] ticks is [64 - k] (so it reaches [-L]
    after [64 + L] ticks and is never 64 in between), it is back at 64
    after exactly [65 + L] ticks, and the cycle repeats. *)
Theorem scroll_offset_cycle (text : string) :
  let L := (font_width * Z.of_nat (String.length text))%Z in
  (forall o, draw_text_scroll text font_width o =
             if (o <=? - L)%Z then rgb_cols else (o - 1)%Z) /\
  (forall k : nat, (Z.of_nat k <= 64 + L)%Z ->
     scroll_ticks k text rgb_cols = (64 - Z.of_nat k)%Z) /\
  scroll_ticks (65 + 6 * String.length text) text rgb_cols = rgb_cols /\
  (forall n : nat,
     scroll_ticks (n * (65 + 6 * String.length text)) text rgb_cols = rgb_cols).
Proof.
  intros L. split; [|split; [|split]].
  - intros o. unfold draw_text_scroll.
    replace (- font_width * _)%Z with (- L)%Z by (subst L; lia). reflexivity.
  - intros k Hk. apply scroll_ticks_decrement. subst L. unfold rgb_cols in *. lia.
  - apply scroll_full_cycle.
  - induction n as [|n IH]; [reflexivity|].
    rewrite Nat.mul_succ_l, scroll_ticks_add, IH. apply scroll_full_cycle.
Qed.

(** ** The train marker *)

Lemma py_round_int (x : Q) (z : Z) : (x == inject_Z z)%Q -> py_round x = z.
Proof.
  intros H. unfold py_round.
  assert (Hf : Qfloor x = z) by (rewrite H; apply Qfloor_Z).
  rewrite Hf.
  destruct (Qlt_le_dec (x - inject_Z z) (1 # 2)) as [_|Hle]; [reflexivity|].
  exfalso. rewrite H in Hle.
  assert (E : (inject_Z z - inject_Z z == 0)%Q) by ring.
  rewrite E in Hle. apply Hle. reflexivity.
Qed.

(** Claim C3, as the spec states it: staleness [max(0, now - t)] without
    rounding and a wrap modulo [64 + 5]. Three ticks where the slowdown
    counter wraps refute it: at a staleness of 119.5 s (threshold 120) the
    marker shakes to 34 instead of advancing to 11; from position 68 it
    advances to 69, not to [69 mod 69 = 0]; at a staleness of 1.5 s it gets
    the default colour, not the fresh one. *)
Lemma train_claim_counterexample :
  let st := {| train_color := train_default_color; train_pos := 10;
               train_slowdown_counter := 9 |} in
  let st68 := {| train_color := train_default_color; train_pos := 68;
                 train_slowdown_counter := 9 |} in
  train_pos (draw_train_animation 120 (1000 + (239 # 2)) 1000 st) = 34%Z /\
  ((239 # 2) < 120)%Q /\ (11 <> 34)%Z /\
  train_pos (draw_train_animation 120 1000 1000 st68) = 69%Z /\
  ((68 + 1) mod (rgb_cols + train_length) = 0)%Z /\
  train_color (draw_train_animation 120 (1000 + (3 # 2)) 1000 st) = train_default_color /\
  ((3 # 2) < 2)%Q.
Proof. vm_compute. repeat split; try reflexivity; discriminate. Qed.

(** Claim C3 (amended): on a tick where the slowdown counter wraps to 0,
    with [secs = max(0, round(now - last_updated))] (Python [round], ties to
    even), the marker shakes between 34 and 35 in the default colour when
    [secs >= train_stale_secs], and otherwise advances one pixel modulo
    [65 + train_length = 70], in the fresh colour iff [secs < 2]; with a
    threshold of 120 a staleness of 119 s advances and one of 121 s
    shakes. *)
Theorem train_animation_tick (train_stale_secs : Z) (now last_updated : Q)
    (st : train_state)
    (Hwrap : ((train_slowdown_counter st + 1) mod train_slowdown_factor = 0)%Z) :
  let secs := Z.max 0 (py_round (now - last_updated)) in
  let st' := draw_train_animation train_stale_secs now last_updated st in
  ((train_stale_secs <= secs)%Z ->
     train_pos st' = (if (train_pos st =? 34)%Z then 35 else 34)%Z /\
     train_color st' = train_default_color) /\
  ((secs < train_stale_secs)%Z ->
     train_pos st' = ((train_pos st + 1) mod (65 + train_length))%Z /\
     (train_color st' = train_updated_color <-> (secs < 2)%Z)) /\
  train_pos (draw_train_animation 120 (last_updated + 119) last_updated st)
    = ((train_pos st + 1) mod 70)%Z /\
  train_pos (draw_train_animation 120 (last_updated + 121) last_updated st)
    = (if (train_pos st =? 34)%Z then 35 else 34)%Z.
Proof.
  intros secs st'.
  assert (R119 : py_round (last_updated + 119 - last_updated) = 119%Z)
    by (apply py_round_int; ring).
  assert (R121 : py_round (last_updated + 121 - last_updated) = 121%Z)
    by (apply py_round_int; ring).
  unfold st', draw_train_animation. rewrite Hwrap. cbn [Z.eqb].
  rewrite R119, R121. fold secs.
  split; [|split; [|split]].
  - intros H. rewrite (proj2 (Z.leb_le _ _) H). split; reflexivity.
  - intros H. destruct (Z.leb_spec train_stale_secs secs); [lia|].
    split; [reflexivity|].
    destruct (Z.ltb_spec secs 2); split; intros; try reflexivity; try lia;
      discriminate.
  - reflexivity.
  - reflexivity.
Qed.

Lemma train_animation_tick_witness :
  let st := {| train_color := train_default_color; train_pos := 10;
               train_slowdown_counter := 9 |} in
  ((train_slowdown_counter st + 1) mod train_slowdown_factor = 0)%Z /\
  train_pos (draw_train_animation 120 (0 + 119) 0 st) = ((train_pos st + 1) mod 70)%Z.
Proof.
  intros st. split; [reflexivity|].
  destruct (train_animation_tick 120 0 0 st eq_refl) as (_ & _ & H & _).
  exact H.
Defined.

(** ** Alert filtering *)

Lemma py_dict_fold_notin {V} (kvs : list (string * V)) (m : gmap string V) (k : string) :
  ~ In k (map fst kvs) ->
  fold_left (fun m kv => <[kv.1 := kv.2]> m) kvs m !! k = m !! k.
Proof.
  revert m. induction kvs as [|[k' v'] kvs IH]; intros m Hk; simpl; [reflexivity|].
  simpl in Hk. rewrite IH by tauto. rewrite lookup_insert_ne; [reflexivity|].
  intros ->. tauto.
Qed.

Lemma py_dict_fold_lookup {V} (kvs : list (string * V)) (m : gmap string V)
    (k : string) (v : V) :
  List.NoDup (map fst kvs) -> In (k, v) kvs ->
  fold_left (fun m kv => <[kv.1 := kv.2]> m) kvs m !! k = Some v.
Proof.
  revert m. induction kvs as [|[k' v'] kvs IH]; intros m Hnd Hin; [destruct Hin|].
  simpl in Hnd. apply NoDup_cons_iff in Hnd as [Hnotin Hnd].
  destruct Hin as [E|Hin].
  - injection E as -> ->. simpl. rewrite py_dict_fold_notin by exact Hnotin.
    apply lookup_insert_eq.
  - simpl. apply IH; assumption.
Qed.

Lemma py_dict_of_list_stops {V} (stops : list Stop) (f : Stop -> V) (s : Stop) :
  List.NoDup (map line stops) -> In s stops ->
  py_dict_of_list (map (fun stop => (line stop, f stop)) stops) !! line s = Some (f s).
Proof.
  intros Hnd Hin. unfold py_dict_of_list. apply py_dict_fold_lookup.
  - rewrite map_map. exact Hnd.
  - apply in_map_iff. exists s. auto.
Qed.

Lemma py_list_in_spec (x : string) (xs : list string) :
  py_list_in x xs = true <-> In x xs.
Proof.
  unfold py_list_in. rewrite existsb_exists. split.
  - intros (y & Hy & E). apply String.eqb_eq in E. subst. exact Hy.
  - intros H. exists x. split; [exact H|]. apply String.eqb_refl.
Qed.

Lemma alert_filter_spec (now : Q) (stop : Stop) (alert : Alert) :
  alert_filter now stop alert = true <->
  (exists period, In period (ActivePeriods alert) /\
                  (Start period <= now)%Q /\ (now <= End period)%Q) /\
  In (stop_code stop) (informed_stop_ids alert).
Proof.
  unfold alert_filter. rewrite andb_true_iff, existsb_exists, py_list_in_spec.
  split.
  - intros [(p & Hp & Hw) Hs]. split; [|exact Hs]. exists p.
    apply andb_true_iff in Hw as [H1 H2].
    apply Qle_bool_iff in H1, H2. auto.
  - intros [(p & Hp & H1 & H2) Hs]. split; [|exact Hs]. exists p.
    split; [exact Hp|]. apply andb_true_iff.
    split; apply Qle_bool_iff; assumption.
Qed.

(** Claim C4: for a stop of the configuration (lines distinct), the alerts
    kept for its line are those with an active period [start <= now <= end]
    (inclusive) whose informed stop ids contain the stop's code, in source
    order; an alert active on [100, 200] is kept at 150 and dropped at 99 and
    at 201. *)
Theorem stop_to_alert_data_spec (stops : list Stop) (now : Q) (alerts : list Alert)
    (s : Stop) (Hnd : List.NoDup (map line stops)) (Hin : In s stops) :
  stop_to_alert_data stops now alerts !! line s =
    Some (map HeaderText_Translations (filter (alert_filter now s) alerts)) /\
  (forall alert : Alert,
     alert_filter now s alert = true <->
     (exists period, In period (ActivePeriods alert) /\
                     (Start period <= now)%Q /\ (now <= End period)%Q) /\
     In (stop_code s) (informed_stop_ids alert)) /\
  alert_filter 150 s (window_alert (stop_code s)) = true /\
  alert_filter 99 s (window_alert (stop_code s)) = false /\
  alert_filter 201 s (window_alert (stop_code s)) = false.
Proof.
  split; [|split; [|split; [|split]]].
  - unfold stop_to_alert_data.
    apply (py_dict_of_list_stops stops
             (fun stop => map HeaderText_Translations
                            (filter (alert_filter now stop) alerts))); assumption.
  - intros alert. apply alert_filter_spec.
  - unfold alert_filter, py_list_in. simpl. rewrite String.eqb_refl. reflexivity.
  - reflexivity.
  - reflexivity.
Qed.

Lemma stop_to_alert_data_spec_witness :
  let s := {| line := "N"; stop_code := "15731" |} in
  List.NoDup (map line [s]) /\ In s [s] /\
  stop_to_alert_data [s] 150 [window_alert "15731"] !! line s =
    Some (map HeaderText_Translations (filter (alert_filter 150 s) [window_alert "15731"])).
Proof.
  intros s.
  assert (Hnd : List.NoDup (map line [s])) by (constructor; [intros []|constructor]).
  assert (Hin : In s [s]) by (left; reflexivity).
  split; [exact Hnd|split; [exact Hin|]].
  destruct (stop_to_alert_data_spec [s] 150 [window_alert "15731"] s Hnd Hin) as [H _].
  exact H.
Defined.

Lemma prefix_spec (n h : string) :
  String.prefix n h = true <-> exists q, h = String.append n q.
Proof.
  revert h. induction n as [|a n IH]; intros h; simpl.
  - split; [intros _; exists h; reflexivity|intros _; destruct h; reflexivity].
  - destruct h as [|b h]; simpl.
    + split; [discriminate|intros [q Hq]; discriminate Hq].
    + destruct (ascii_dec a b) as [->|Hab].
      * rewrite IH. split; intros [q Hq]; exists q; [rewrite Hq|injection Hq]; auto.
      * split; [discriminate|intros [q Hq]; injection Hq; intros; congruence].
Qed.

(** [needle in hay] holds iff [needle] occurs in [hay] at some position. *)
Lemma py_str_in_spec (needle hay : string) :
  py_str_in needle hay = true <->
  exists p q, hay = String.append p (String.append needle q).
Proof.
  induction hay as [|c hay IH]; cbn [py_str_in]; rewrite orb_true_iff, prefix_spec.
  - split.
    + intros [[q Hq]|Hf]; [exists EmptyString, q; exact Hq|discriminate Hf].
    + intros (p & q & Hpq). left. destruct p as [|c p]; [exists q; exact Hpq|].
      discriminate Hpq.
  - rewrite IH. split.
    + intros [[q Hq]|(p & q & Hpq)].
      * exists EmptyString, q. exact Hq.
      * exists (String c p), q. simpl. rewrite Hpq. reflexivity.
    + intros (p & q & Hpq). destruct p as [|c' p].
      * left. exists q. exact Hpq.
      * right. injection Hpq as -> Hpq. exists p, q. exact Hpq.
Qed.

Lemma existsb_false_iff {A} (f : A -> bool) (l : list A) :
  existsb f l = false <-> (forall x, In x l -> f x = false).
Proof.
  induction l as [|a l IH]; simpl; [split; [intros _ x []|reflexivity]|].
  rewrite orb_false_iff, IH. split.
  - intros [H1 H2] x [<-|Hx]; auto.
  - intros H. split; auto.
Qed.

Lemma english_text_none (ignored_alert_text : list string) (trs : list Translation) :
  english_text ignored_alert_text trs = None <->
  (forall t, In t trs -> Language t = "en" ->
             exists ig, In ig ignored_alert_text /\ py_str_in ig (Text t) = true).
Proof.
  unfold english_text.
  destruct (List.find _ trs) as [t|] eqn:E; simpl.
  - split; [discriminate|]. intros H. exfalso.
    apply find_some in E as [Hin Hf].
    apply andb_true_iff in Hf as [Hen Hno]. apply String.eqb_eq in Hen.
    destruct (H t Hin Hen) as (ig & Hig & Hs).
    apply negb_true_iff in Hno. rewrite existsb_false_iff in Hno.
    rewrite (Hno ig Hig) in Hs. discriminate.
  - split; [intros _|reflexivity]. intros t Hin Hen.
    pose proof (find_none _ _ E t Hin) as Hf. simpl in Hf.
    rewrite (proj2 (String.eqb_eq _ _) Hen) in Hf. simpl in Hf.
    apply negb_false_iff, existsb_exists in Hf. exact Hf.
Qed.

Lemma english_text_some (ignored_alert_text : list string) (trs : list Translation)
    (x : string) :
  english_text ignored_alert_text trs = Some x ->
  exists t, In t trs /\ Language t = "en" /\ Text t = x /\
            (forall ig, In ig ignored_alert_text -> py_str_in ig x = false).
Proof.
  unfold english_text. destruct (List.find _ trs) as [t|] eqn:E; simpl;
    [|discriminate]. intros Hx. injection Hx as <-.
  apply find_some in E as [Hin Hf].
  apply andb_true_iff in Hf as [Hen Hno]. apply String.eqb_eq in Hen.
  apply negb_true_iff in Hno. rewrite existsb_false_iff in Hno.
  exists t. auto.
Qed.

Lemma omap_id_map {A B} (f : A -> option B) (l : list A) :
  omap (fun a => a) (map f l) = omap f l.
Proof.
  induction l as [|a l IH]; [reflexivity|]. cbn [map].
  change (omap f (a :: l)) with (match f a with Some b => b :: omap f l | None => omap f l end).
  change (omap (fun a0 : option B => a0) (f a :: map f l))
    with (match f a with Some b => b :: omap (fun a0 : option B => a0) (map f l)
                       | None => omap (fun a0 : option B => a0) (map f l) end).
  rewrite IH. reflexivity.
Qed.

Lemma fetch_alerts_result_lookup (stops : list Stop) (ignored_alert_text : list string)
    (now : Q) (alerts : list Alert) (s : Stop) :
  List.NoDup (map line stops) -> In s stops ->
  fetch_alerts_result stops ignored_alert_text now alerts !! line s =
  Some (omap (fun alert => english_text ignored_alert_text
                                        (HeaderText_Translations alert))
             (filter (alert_filter now s) alerts)).
Proof.
  intros Hnd Hin. unfold fetch_alerts_result.
  rewrite !lookup_fmap.
  destruct (stop_to_alert_data_spec stops now alerts s Hnd Hin) as [H _].
  rewrite H. simpl. f_equal.
  rewrite map_map, omap_id_map. reflexivity.
Qed.

(** Claim C5, as the spec states it: an alert with an English text that
    contains an ignored substring is excluded. It fails: an alert with two
    English translations, the first containing the ignored ["Elevator"],
    is kept with its second text. *)
Lemma ignored_text_counterexample :
  py_str_in "Elevator" "Elevator outage at Church" = true /\
  In {| Text := "Elevator outage at Church"; Language := "en" |}
     (HeaderText_Translations two_english_alert) /\
  fetch_alerts_result [{| line := "N"; stop_code := "15731" |}] ["Elevator"] 50
                      [two_english_alert] !! "N" = Some ["Expect delays"].
Proof.
  split; [reflexivity|split; [left; reflexivity|]].
  vm_compute. reflexivity.
Qed.

(** Claim C5 (amended): for a stop of the configuration (lines distinct),
    each alert that passes the period/stop filter contributes the text of
    its first translation that is English and contains none of the ignored
    substrings (case-sensitive test at any position); an alert with no such
    translation (no English text, or every English text containing an
    ignored substring) is dropped; the kept strings follow the source
    order. *)
Theorem fetch_alerts_ignored_text (stops : list Stop) (ignored_alert_text : list string)
    (now : Q) (alerts : list Alert) (s : Stop)
    (Hnd : List.NoDup (map line stops)) (Hin : In s stops) :
  fetch_alerts_result stops ignored_alert_text now alerts !! line s =
    Some (omap (fun alert => english_text ignored_alert_text
                                          (HeaderText_Translations alert))
               (filter (alert_filter now s) alerts)) /\
  (forall trs : list Translation,
     english_text ignored_alert_text trs = None <->
     (forall t, In t trs -> Language t = "en" ->
                exists ig, In ig ignored_alert_text /\ py_str_in ig (Text t) = true)) /\
  (forall (trs : list Translation) (x : string),
     english_text ignored_alert_text trs = Some x ->
     exists t, In t trs /\ Language t = "en" /\ Text t = x /\
               (forall ig, In ig ignored_alert_text -> py_str_in ig x = false)) /\
  (forall needle hay : string,
     py_str_in needle hay = true <->
     exists p q, hay = String.append p (String.append needle q)).
Proof.
  split; [apply fetch_alerts_result_lookup; assumption|].
  split; [intros trs; apply english_text_none|].
  split; [intros trs x; apply english_text_some|].
  intros needle hay. apply py_str_in_spec.
Qed.

Lemma fetch_alerts_ignored_text_witness :
  let s := {| line := "N"; stop_code := "15731" |} in
  List.NoDup (map line [s]) /\ In s [s] /\
  fetch_alerts_result [s] ["Elevator"] 50 [two_english_alert] !! line s =
    Some (omap (fun alert => english_text ["Elevator"] (HeaderText_Translations alert))
               (filter (alert_filter 50 s) [two_english_alert])).
Proof.
  intros s.
  assert (Hnd : List.NoDup (map line [s])) by (constructor; [intros []|constructor]).
  assert (Hin : In s [s]) by (left; reflexivity).
  split; [exact Hnd|split; [exact Hin|]].
  destruct (fetch_alerts_ignored_text [s] ["Elevator"] 50 [two_english_alert] s Hnd Hin)
    as [H _].
  exact H.
Defined.

(** ** API key rotation *)

Section KeyRotation.

Variable keys : list string.
Variable agency' : string.

Local Abbreviation key_state := (key_state keys agency').

Lemma next_api_keys_add (a b : nat) (st st' st'' : SF511API) (l1 l2 : list string) :
  next_api_keys a st = inl (st', l1) -> next_api_keys b st' = inl (st'', l2) ->
  next_api_keys (a + b) st = inl (st'', (l1 ++ l2)%list).
Proof.
  revert st l1. induction a as [|a IH]; intros st l1 H1 H2; simpl in *.
  - injection H1 as -> <-. exact H2.
  - destruct (next_api_key st) as [[st1 k]|e]; [|discriminate].
    destruct (next_api_keys a st1) as [[st2 l]|e] eqn:E; [|discriminate].
    injection H1 as -> <-. rewrite (IH st1 l E H2). reflexivity.
Qed.

Lemma next_api_key_state (c : nat) (k : string) :
  keys !! c = Some k ->
  next_api_key (key_state c) = inl (key_state ((c + 1) mod length keys), k).
Proof.
  intros H. unfold next_api_key, key_state. cbn [api_key api_key_counter agency].
  rewrite H. pose proof (lookup_lt_Some _ _ _ H) as Hlt.
  destruct (length keys) as [|n] eqn:E; [lia|]. reflexivity.
Qed.

Lemma next_api_keys_suffix (suf pre : list string) :
  suf <> [] -> keys = (pre ++ suf)%list ->
  next_api_keys (length suf) (key_state (length pre)) = inl (key_state 0, suf).
Proof.
  revert pre. induction suf as [|k suf IH]; intros pre Hne Hk; [congruence|].
  assert (Hl : keys !! length pre = Some k).
  { rewrite Hk, lookup_app_r, Nat.sub_diag by lia. reflexivity. }
  assert (Hlen : length keys = (length pre + S (length suf))%nat).
  { rewrite Hk, length_app. reflexivity. }
  cbn [length next_api_keys]. rewrite (next_api_key_state _ _ Hl), Hlen.
  destruct suf as [|k2 suf].
  - cbn [length next_api_keys]. rewrite Nat.Div0.mod_same. reflexivity.
  - rewrite Nat.mod_small by (cbn [length]; lia).
    specialize (IH (pre ++ [k])%list ltac:(discriminate)
                   ltac:(rewrite Hk, <- app_assoc; reflexivity)).
    rewrite length_app in IH. cbn [length] in IH |- *. rewrite IH. reflexivity.
Qed.

Lemma next_api_keys_cycle :
  keys <> [] -> next_api_keys (length keys) (key_state 0) = inl (key_state 0, keys).
Proof.
  intros Hne. apply (next_api_keys_suffix keys []); [exact Hne|reflexivity].
Qed.

End KeyRotation.

(** Claim C6: for a non-empty key list of size N, 2N successive calls of
    [next_api_key] on a fresh [SF511API] return the keys in list order twice
    (round robin), so each key occurs exactly twice as often as in the list,
    and the rotation is back at its start. *)
Theorem next_api_key_round_robin (keys : list string) (agency' : string)
    (Hne : keys <> []) :
  next_api_keys (2 * length keys) (SF511API_init keys agency') =
    inl (SF511API_init keys agency', (keys ++ keys)%list) /\
  (forall x, count_occ String.string_dec ((keys ++ keys)%list) x = 2 * count_occ String.string_dec keys x)%nat.
Proof.
  split.
  - replace (2 * length keys)%nat with (length keys + length keys)%nat by lia.
    apply (next_api_keys_add _ _ _ (key_state keys agency' 0));
      apply next_api_keys_cycle; exact Hne.
  - intros x. rewrite count_occ_app. lia.
Qed.

Lemma next_api_key_round_robin_witness :
  ["key1"; "key2"; "key3"] <> [] /\
  next_api_keys 6 (SF511API_init ["key1"; "key2"; "key3"] "SF") =
    inl (SF511API_init ["key1"; "key2"; "key3"] "SF",
         ["key1"; "key2"; "key3"; "key1"; "key2"; "key3"]).
Proof.
  assert (Hne : ["key1"; "key2"; "key3"] <> []) by discriminate.
  split; [exact Hne|].
  exact (proj1 (next_api_key_round_robin ["key1"; "key2"; "key3"] "SF" Hne)).
Defined.

(** Claim C8, as the spec states it: an empty key list is refused at
    startup with a configuration error. It fails: the constructor accepts
    it, and the first [next_api_key] raises [IndexError]. *)
Lemma empty_key_pool_counterexample :
  api_key (SF511API_init [] "SF") = [] /\
  next_api_key (SF511API_init [] "SF") = inr IndexError.
Proof. split; reflexivity. Qed.

(** Claim C8 (amended): [SF511API] is constructed from an empty key list
    without any check; every call of [next_api_key] on it, the first one
    included, raises [IndexError]. *)
Theorem empty_key_pool_index_error (agency' : string) (c : nat) :
  SF511API_init [] agency' = {| api_key := []; api_key_counter := 0; agency := agency' |} /\
  next_api_key (SF511API_init [] agency') = inr IndexError /\
  next_api_key {| api_key := []; api_key_counter := c; agency := agency' |} = inr IndexError.
Proof.
  split; [reflexivity|split; [reflexivity|]].
  destruct c; reflexivity.
Qed.

(** ** The stored prediction sequence *)

Lemma parse_expected_times_ok (fromisoformat_timestamp : string -> option Q)
    (visits : list MonitoredStopVisit) (ts : list Q) :
  parse_expected_times fromisoformat_timestamp visits = inl ts ->
  map Some ts = map fromisoformat_timestamp (omap ExpectedArrivalTime visits).
Proof.
  revert ts. induction visits as [|v visits IH]; intros ts H.
  - injection H as <-. reflexivity.
  - unfold parse_expected_times in H. cbn [map foldr] in H.
    fold (parse_expected_times fromisoformat_timestamp visits) in H.
    change (omap ExpectedArrivalTime (v :: visits)) with
      (match ExpectedArrivalTime v with
       | Some s => s :: omap ExpectedArrivalTime visits
       | None => omap ExpectedArrivalTime visits end).
    destruct (ExpectedArrivalTime v) as [s|]; [|apply IH, H].
    destruct (fromisoformat_timestamp s) as [t|] eqn:Et; [|discriminate].
    destruct (parse_expected_times fromisoformat_timestamp visits) as [ts'|e];
      [|discriminate].
    injection H as <-. cbn [map]. rewrite Et, (IH ts' eq_refl). reflexivity.
Qed.

(** Claim C9, as the spec states it: the stored sequence is always sorted
    ascending. It fails: a payload listing 17:10 before 17:05 is stored in
    that order. *)
Lemma unsorted_predictions_counterexample :
  fetch_and_parse_predictions iso_utc_timestamp "N" arrival_visits ∅ =
    inl (<["N" := [1714583400; 1714583100]%Q]> ∅) /\
  ~ Sorted Qle [1714583400; 1714583100]%Q.
Proof.
  split; [vm_compute; reflexivity|].
  intros Hs. inversion Hs as [|a l Hs' Hhd]; subst.
  inversion Hhd as [|b l' Hle]; subst. vm_compute in Hle. apply Hle. reflexivity.
Qed.

(** Claim C9 (amended): a completed [fetch_and_parse_predictions] stores
    for its line the timestamps of the payload's non-null
    [ExpectedArrivalTime] values, in payload order and without sorting,
    and leaves the other lines unchanged; the stored sequence is therefore
    sorted ascending exactly when those payload timestamps are. *)
Theorem fetch_and_parse_predictions_order
    (fromisoformat_timestamp : string -> option Q) (line' : string)
    (visits : list MonitoredStopVisit) (store store' : gmap string (list Q))
    (H : fetch_and_parse_predictions fromisoformat_timestamp line' visits store
         = inl store') :
  exists ts,
    store' !! line' = Some ts /\
    map Some ts = map fromisoformat_timestamp (omap ExpectedArrivalTime visits) /\
    (forall l, l <> line' -> store' !! l = store !! l) /\
    (Sorted Qle ts <->
     Sorted (fun a b => match a, b with Some x, Some y => (x <= y)%Q | _, _ => False end)
            (map fromisoformat_timestamp (omap ExpectedArrivalTime visits))).
Proof.
  unfold fetch_and_parse_predictions in H.
  destruct (parse_expected_times fromisoformat_timestamp visits) as [ts|e] eqn:E;
    [|discriminate].
  injection H as <-. exists ts.
  pose proof (parse_expected_times_ok _ _ _ E) as Hm.
  split; [apply lookup_insert_eq|]. split; [exact Hm|]. split.
  - intros l Hl. apply lookup_insert_ne. congruence.
  - rewrite <- Hm. clear. induction ts as [|a ts IH]; cbn [map]; split; intros Hs.
    + constructor.
    + constructor.
    + apply Sorted_inv in Hs as [Hs Hh]. constructor; [apply IH, Hs|].
      destruct ts as [|b ts]; constructor. apply HdRel_inv in Hh. exact Hh.
    + apply Sorted_inv in Hs as [Hs Hh]. constructor; [apply IH, Hs|].
      destruct ts as [|b ts]; constructor. apply HdRel_inv in Hh. exact Hh.
Qed.

Lemma fetch_and_parse_predictions_order_witness :
  fetch_and_parse_predictions iso_utc_timestamp "N" arrival_visits ∅ =
    inl (<["N" := [1714583400; 1714583100]%Q]> ∅) /\
  exists ts, (<["N" := [1714583400; 1714583100]%Q]> (∅ : gmap string (list Q))) !! "N"
             = Some ts /\
    map Some ts = map iso_utc_timestamp (omap ExpectedArrivalTime arrival_visits).
Proof.
  assert (H : fetch_and_parse_predictions iso_utc_timestamp "N" arrival_visits ∅ =
                inl (<["N" := [1714583400; 1714583100]%Q]> ∅))
    by (vm_compute; reflexivity).
  split; [exact H|].
  destruct (fetch_and_parse_predictions_order _ _ _ _ _ H) as (ts & H1 & H2 & _).
  exists ts. split; [exact H1|exact H2].
Defined.

(** ** Locking of the render-loop reads *)

(** Claim C7 (refuted by the code): [with lock0 and lock1:] enters only the
    lock of the second row, whatever the two lines; so the render thread can
    read row N while the fetch worker of row N holds that row's lock in the
    middle of its write: after the worker's [Acquire], the render thread's
    [Acquire] of row J's lock and its read of row N both go through. *)
Theorem get_prediction_strs_locks_one_row :
  (forall line0 line1 : string,
     get_prediction_strs_prog line0 line1 =
     [Acquire (prediction_time_lock line1); ReadPredictions line0;
      ReadPredictions line1; Release (prediction_time_lock line1)]) /\
  exists w,
    run (init_world stops_NJ prediction_race_progs)
        [FetchThread 0; RenderThread; RenderThread] = Some w /\
    owner w (prediction_time_lock "N") = Some (FetchThread 0) /\
    owner w (prediction_time_lock "J") = Some RenderThread /\
    program w (FetchThread 0) =
      [WritePredictions "N" [1714583100]%Q; Release (prediction_time_lock "N")] /\
    observed w = [(RenderThread, ObsPredictions "N" (Some []))].
Proof.
  split; [intros; reflexivity|].
  eexists. split; [reflexivity|].
  split; [reflexivity|]. split; [reflexivity|]. split; reflexivity.
Qed.

(** ** Alert reads observe one completed cycle *)

Section AlertReads.

Variables line0 line1 : string.
Variable cycles : list (gmap string (list string) * Q).
Variable alerts0 : gmap string (list string).

(** The alert maps a reader may legitimately see: the initial one or one
    written by a completed [fetch_alerts]. *)
Local Abbreviation alert_inv := (alert_inv line0 line1 cycles alerts0).
Local Abbreviation alert_maps := (alert_maps cycles alerts0).

Lemma alerts_thread_prog_cons (m : gmap string (list string)) (t : Q)
    (cs : list (gmap string (list string) * Q)) :
  alerts_thread_prog ((m, t) :: cs) =
  Acquire alert_data_lock :: WriteAlertStamp t :: WriteAlerts m
  :: Release alert_data_lock :: alerts_thread_prog cs.
Proof. reflexivity. Qed.

Ltac reader_cases Hr :=
  destruct Hr as [(?Hp & ?Ho & ?Hn)|[(?Hp & ?Ho & ?Hn)|[(?Hp & ?Ho & ?Hn)
                 |[(?Hp & ?Ho & ?Hn)|(?Hp & ?Hm)]]]].

Ltac writer_cases Hw :=
  destruct Hw as [(?Hwp & ?Hwo)|[(?m & ?ts & ?Hin & ?Hwp & ?Hwo)
                 |[(?m & ?Hin & ?Hwp & ?Hwo)|(?Hwp & ?Hwo)]]].

Lemma alert_inv_step (w w' : world) (t : tid) :
  alert_inv w -> step w t = Some w' -> alert_inv w'.
Proof.
  intros (Hal & (cs & Hcs & Hw) & Hr & Hf) Hstep.
  unfold step in Hstep.
  destruct t as [| |i].
  - (* the render thread *)
    reader_cases Hr; rewrite Hp in Hstep; cbn in Hstep.
    + (* Acquire alert_data_lock *)
      destruct (owner w alert_data_lock) as [o|] eqn:Eo; [discriminate|].
      injection Hstep as <-. split; [|split; [|split]].
      * exact Hal.
      * exists cs. split; [exact Hcs|]. cbn.
        writer_cases Hw; try congruence.
        left. split; [exact Hwp|discriminate].
      * cbn. right; left. auto.
      * intros i. apply Hf.
    + (* read of the first row *)
      injection Hstep as <-. split; [|split; [|split]].
      * exact Hal.
      * exists cs. split; [exact Hcs|]. exact Hw.
      * cbn. right; right; left. rewrite Ho. auto.
      * intros i. apply Hf.
    + (* read of the second row *)
      injection Hstep as <-. split; [|split; [|split]].
      * exact Hal.
      * exists cs. split; [exact Hcs|]. exact Hw.
      * cbn. right; right; right; left. rewrite Ho. auto.
      * intros i. apply Hf.
    + (* Release alert_data_lock *)
      rewrite Hn in Hstep. injection Hstep as <-. split; [|split; [|split]].
      * exact Hal.
      * exists cs. split; [exact Hcs|]. cbn.
        writer_cases Hw; try congruence.
        left. split; [exact Hwp|discriminate].
      * cbn. right; right; right; right. split; [reflexivity|].
        exists (alerts w). split; [exact Hal|exact Ho].
      * intros i. apply Hf.
    + discriminate.
  - (* the alert polling thread *)
    writer_cases Hw.
    + (* Acquire alert_data_lock at the start of a cycle's commit *)
      destruct cs as [|[m ts] cs]; [rewrite Hwp in Hstep; discriminate|].
      rewrite alerts_thread_prog_cons in Hwp. rewrite Hwp in Hstep. cbn in Hstep.
      destruct (owner w alert_data_lock) as [o|] eqn:Eo; [discriminate|].
      injection Hstep as <-. split; [|split; [|split]].
      * exact Hal.
      * exists cs. split; [intros c Hc; apply Hcs; right; exact Hc|]. cbn.
        right; left. exists m, ts. split; [apply Hcs; left; reflexivity|].
        split; reflexivity.
      * cbn. reader_cases Hr; try congruence.
        -- left. repeat split; auto; discriminate.
        -- right; right; right; right. auto.
      * intros i. apply Hf.
    + (* WriteAlertStamp *)
      rewrite Hwp in Hstep. cbn in Hstep. injection Hstep as <-.
      split; [|split; [|split]].
      * exact Hal.
      * exists cs. split; [exact Hcs|]. cbn.
        right; right; left. exists m. split; [|split; [reflexivity|exact Hwo]].
        apply in_map_iff. exists (m, ts). auto.
      * cbn. reader_cases Hr; try congruence.
        -- left. auto.
        -- right; right; right; right. auto.
      * intros i. apply Hf.
    + (* WriteAlerts: the whole-map assignment *)
      rewrite Hwp in Hstep. cbn in Hstep. injection Hstep as <-.
      split; [|split; [|split]].
      * right. exact Hin.
      * exists cs. split; [exact Hcs|]. cbn.
        right; right; right. auto.
      * cbn. reader_cases Hr; try congruence.
        -- left. auto.
        -- right; right; right; right. auto.
      * intros i. apply Hf.
    + (* Release alert_data_lock *)
      rewrite Hwp in Hstep. cbn in Hstep. rewrite Hwo in Hstep.
      injection Hstep as <-. split; [|split; [|split]].
      * exact Hal.
      * exists cs. split; [exact Hcs|]. cbn.
        left. split; [reflexivity|discriminate].
      * cbn. reader_cases Hr; try congruence.
        -- left. repeat split; auto; discriminate.
        -- right; right; right; right. auto.
      * intros i. apply Hf.
  - rewrite Hf in Hstep. discriminate.
Qed.

Lemma alert_inv_run (sched : list tid) (w w' : world) :
  alert_inv w -> run w sched = Some w' -> alert_inv w'.
Proof.
  revert w. induction sched as [|t sched IH]; intros w Hinv Hrun; simpl in Hrun.
  - injection Hrun as <-. exact Hinv.
  - destruct (step w t) as [w1|] eqn:E; [|discriminate].
    apply (IH w1); [apply (alert_inv_step w w1 t Hinv E)|exact Hrun].
Qed.

End AlertReads.

(** Claim C10: [fetch_alerts] publishes each cycle's alert map with one
    whole-map assignment inside its [alert_data_lock] section (together with
    the freshness stamp), and [get_alert_strs] reads both rows inside one
    [alert_data_lock] section; so under every interleaving of the two
    threads, once the render thread has finished its read, the two rows it
    observed come from one and the same map: the initial one or the map of
    one completed alert cycle. *)
Theorem alert_reads_same_cycle (stops : list Stop) (line0 line1 : string)
    (cycles : list (gmap string (list string) * Q)) (sched : list tid) (w : world)
    (Hrun : run (init_world stops (alert_progs line0 line1 cycles)) sched = Some w)
    (Hdone : program w RenderThread = []) :
  (forall m t, fetch_alerts_commit m t =
     [Acquire alert_data_lock; WriteAlertStamp t; WriteAlerts m;
      Release alert_data_lock]) /\
  exists m, (m = alerts (init_world stops (alert_progs line0 line1 cycles)) \/
             In m (map fst cycles)) /\
            observed w = alert_pair line0 line1 m.
Proof.
  split; [reflexivity|].
  set (a0 := alerts (init_world stops (alert_progs line0 line1 cycles))).
  assert (Hinit : alert_inv line0 line1 cycles a0
                    (init_world stops (alert_progs line0 line1 cycles))).
  { split; [left; reflexivity|]. split; [|split].
    - exists cycles. split; [intros c Hc; exact Hc|].
      left. split; [reflexivity|discriminate].
    - left. split; [reflexivity|split; [reflexivity|discriminate]].
    - intros i. reflexivity. }
  destruct (alert_inv_run _ _ _ _ _ _ _ Hinit Hrun) as (_ & _ & Hr & _).
  destruct Hr as [(Hp & _)|[(Hp & _)|[(Hp & _)|[(Hp & _)|(_ & m & Hm & Ho)]]]];
    try (rewrite Hdone in Hp; discriminate).
  exists m. split; [|exact Ho].
  destruct Hm as [<-|Hm]; [left; reflexivity|right; exact Hm].
Qed.

Lemma alert_reads_same_cycle_witness :
  let w0 := init_world stops_NJ (alert_progs "N" "J" alert_cycles_ex) in
  let w := match run w0 alert_sched_ex with Some w => w | None => w0 end in
  run w0 alert_sched_ex = Some w /\ program w RenderThread = [] /\
  exists m, (m = alerts w0 \/ In m (map fst alert_cycles_ex)) /\
            observed w = alert_pair "N" "J" m.
Proof.
  intros w0 w.
  assert (H1 : run w0 alert_sched_ex = Some w) by (vm_compute; reflexivity).
  assert (H2 : program w RenderThread = []) by (vm_compute; reflexivity).
  split; [exact H1|split; [exact H2|]].
  destruct (alert_reads_same_cycle stops_NJ "N" "J" alert_cycles_ex alert_sched_ex w H1 H2)
    as [_ H]. exact H.
Defined.

(* ================================================================== *)
(** * Further properties of the code *)

(** ** The retry loop and the requests *)

Lemma fetch_internal_log {A} (url : string) (query_params : list (string * string))
    (timeout backoff : Z) (k : nat) (body : A) (rest : list (option A)) :
  fetch_internal url query_params timeout backoff ((repeat None k ++ Some body :: rest)%list) =
  (repeat (url, query_params, timeout) (S k),
   map (fun i => backoff * 2 ^ Z.of_nat i)%Z (seq 0 k), Some body).
Proof.
  revert backoff. induction k as [|k IH]; intros backoff; [reflexivity|].
  cbn [repeat app fetch_internal]. rewrite IH.
  cbn [seq map]. rewrite <- seq_shift, map_map.
  do 3 f_equal.
  - lia.
  - apply map_ext. intros i. rewrite Nat2Z.inj_succ, Z.pow_succ_r by lia. ring.
Qed.

Lemma fetch_internal_pending {A} (url : string) (query_params : list (string * string))
    (timeout backoff : Z) (k : nat) :
  fetch_internal (A := A) url query_params timeout backoff (repeat None k) =
  (repeat (url, query_params, timeout) k,
   map (fun i => backoff * 2 ^ Z.of_nat i)%Z (seq 0 k), None).
Proof.
  revert backoff. induction k as [|k IH]; intros backoff; [reflexivity|].
  cbn [repeat fetch_internal]. rewrite IH.
  cbn [seq map]. rewrite <- seq_shift, map_map.
  do 3 f_equal.
  - lia.
  - apply map_ext. intros i. rewrite Nat2Z.inj_succ, Z.pow_succ_r by lia. ring.
Qed.

Lemma next_api_key_nth (keys : list string) (agency' : string) (c : nat) :
  (c < length keys)%nat ->
  next_api_key (key_state keys agency' c) =
  inl (key_state keys agency' ((c + 1) mod length keys), nth c keys "").
Proof.
  intros Hc. destruct (lookup_lt_is_Some_2 keys c Hc) as [x Hx].
  rewrite (nth_lookup_Some keys c "" x Hx). apply next_api_key_state. exact Hx.
Qed.

(** Extra X1: [fetch_internal] after [k] failed requests followed by a
    successful one returns that body, having sent [k + 1] identical requests
    and slept [backoff * 2^i] seconds after the [i]-th failure; while the
    requests keep failing it never returns. *)
Theorem fetch_internal_retry {A} (url : string) (query_params : list (string * string))
    (timeout backoff : Z) (k : nat) (body : A) (rest : list (option A)) :
  fetch_internal url query_params timeout backoff ((repeat None k ++ Some body :: rest)%list) =
  (repeat (url, query_params, timeout) (S k),
   map (fun i => backoff * 2 ^ Z.of_nat i)%Z (seq 0 k), Some body) /\
  fetch_internal (A := A) url query_params timeout backoff (repeat None k) =
  (repeat (url, query_params, timeout) k,
   map (fun i => backoff * 2 ^ Z.of_nat i)%Z (seq 0 k), None).
Proof.
  split; [apply fetch_internal_log|apply fetch_internal_pending].
Qed.

(** Extra X2: a call of [SF511API.fetch_predictions] takes exactly one API
    key (the one at the counter, which then advances by one modulo the
    number of keys), however many times the request is retried; every
    attempt is the same StopMonitoring request with that key, timeout 5, and
    the backoffs are 10, 20, 40, ... seconds. *)
Theorem SF511API_fetch_predictions_one_key {A} (keys : list string) (agency' : string)
    (c : nat) (stop_code' : string) (k : nat) (body : A) (rest : list (option A)) :
  (c < length keys)%nat ->
  SF511API_fetch_predictions (key_state keys agency' c) stop_code'
                             ((repeat None k ++ Some body :: rest)%list) =
  inl (key_state keys agency' ((c + 1) mod length keys),
       (repeat ("http://api.511.org/transit/StopMonitoring",
                [("api_key", nth c keys ""); ("agency", agency');
                 ("stopCode", stop_code'); ("format", "json")], 5%Z) (S k),
        map (fun i => 10 * 2 ^ Z.of_nat i)%Z (seq 0 k), Some body)).
Proof.
  intros Hc. unfold SF511API_fetch_predictions.
  rewrite (next_api_key_nth keys agency' c Hc).
  rewrite fetch_internal_log. reflexivity.
Qed.

Lemma SF511API_fetch_predictions_one_key_witness :
  (1 < length ["key1"; "key2"])%nat /\
  SF511API_fetch_predictions (key_state ["key1"; "key2"] "SF" 1) "15731"
    ((repeat None 2 ++ [Some 7%Z])%list) =
  inl (key_state ["key1"; "key2"] "SF" 0,
       (repeat ("http://api.511.org/transit/StopMonitoring",
                [("api_key", "key2"); ("agency", "SF");
                 ("stopCode", "15731"); ("format", "json")], 5%Z) 3,
        [10%Z; 20%Z], Some 7%Z)).
Proof.
  assert (H : (1 < length ["key1"; "key2"])%nat) by (simpl; lia).
  split; [exact H|].
  exact (SF511API_fetch_predictions_one_key ["key1"; "key2"] "SF" 1 "15731" 2 7%Z [] H).
Defined.

(** Extra X3: a call of [SF511API.fetch_alerts] likewise takes exactly one
    API key whatever the retries; every attempt is the same servicealerts
    request with that key, timeout 10, and the backoffs are 20, 40, 80, ...
    seconds. *)
Theorem SF511API_fetch_alerts_one_key {A} (keys : list string) (agency' : string)
    (c : nat) (k : nat) (body : A) (rest : list (option A)) :
  (c < length keys)%nat ->
  SF511API_fetch_alerts (key_state keys agency' c)
                        ((repeat None k ++ Some body :: rest)%list) =
  inl (key_state keys agency' ((c + 1) mod length keys),
       (repeat ("http://api.511.org/transit/servicealerts",
                [("api_key", nth c keys ""); ("agency", agency');
                 ("format", "json")], 10%Z) (S k),
        map (fun i => 20 * 2 ^ Z.of_nat i)%Z (seq 0 k), Some body)).
Proof.
  intros Hc. unfold SF511API_fetch_alerts.
  rewrite (next_api_key_nth keys agency' c Hc).
  rewrite fetch_internal_log. reflexivity.
Qed.

Lemma SF511API_fetch_alerts_one_key_witness :
  (0 < length ["key1"; "key2"])%nat /\
  SF511API_fetch_alerts (key_state ["key1"; "key2"] "SF" 0)
    ((repeat None 1 ++ [Some 7%Z])%list) =
  inl (key_state ["key1"; "key2"] "SF" 1,
       (repeat ("http://api.511.org/transit/servicealerts",
                [("api_key", "key1"); ("agency", "SF"); ("format", "json")], 10%Z) 2,
        [20%Z], Some 7%Z)).
Proof.
  assert (H : (0 < length ["key1"; "key2"])%nat) by (simpl; lia).
  split; [exact H|].
  exact (SF511API_fetch_alerts_one_key ["key1"; "key2"] "SF" 0 1 7%Z [] H).
Defined.

(** Extra X4: from any counter [c] below the number [N] of keys, [k]
    successive calls of [next_api_key] return [keys[c]], [keys[(c+1) mod N]],
    ..., [keys[(c+k-1) mod N]] and leave the counter at [(c+k) mod N]. *)
Theorem next_api_keys_from (keys : list string) (agency' : string) (c k : nat) :
  (c < length keys)%nat ->
  next_api_keys k (key_state keys agency' c) =
  inl (key_state keys agency' ((c + k) mod length keys),
       map (fun i => nth ((c + i) mod length keys) keys "") (seq 0 k)).
Proof.
  revert c. induction k as [|k IH]; intros c Hc.
  - cbn [next_api_keys seq map]. rewrite Nat.add_0_r, Nat.mod_small by exact Hc.
    reflexivity.
  - cbn [next_api_keys]. rewrite (next_api_key_nth keys agency' c Hc).
    assert (HN : length keys <> 0%nat) by lia.
    rewrite IH by (apply Nat.mod_upper_bound; exact HN).
    rewrite Nat.Div0.add_mod_idemp_l.
    cbn [seq map]. rewrite Nat.add_0_r, (Nat.mod_small c) by exact Hc.
    rewrite <- seq_shift, map_map.
    do 3 f_equal; [f_equal; lia|].
    apply map_ext. intros i. rewrite Nat.Div0.add_mod_idemp_l. f_equal. f_equal. lia.
Qed.

Lemma next_api_keys_from_witness :
  (2 < length ["key1"; "key2"; "key3"])%nat /\
  next_api_keys 4 (key_state ["key1"; "key2"; "key3"] "SF" 2) =
  inl (key_state ["key1"; "key2"; "key3"] "SF" 0, ["key3"; "key1"; "key2"; "key3"]).
Proof.
  assert (H : (2 < length ["key1"; "key2"; "key3"])%nat) by (simpl; lia).
  split; [exact H|].
  exact (next_api_keys_from ["key1"; "key2"; "key3"] "SF" 2 4 H).
Defined.

(** ** The display string *)





(** Extra X6: the minutes shown for an arrival never increase as the clock
    advances, and at a given instant a later arrival never shows fewer
    minutes than an earlier one. *)
Theorem minutes_until_monotone (now now' e e' : Q) :
  (now' <= now)%Q -> (e <= e')%Q -> (minutes_until now e <= minutes_until now' e')%Z.
Proof.
  intros Hn He. unfold minutes_until.
  apply Z.max_le_compat_l, Qfloor_resp_le.
  unfold Qdiv. apply Qmult_le_compat_r; [|discriminate].
  unfold Qminus. apply Qplus_le_compat; [exact He|apply Qopp_le_compat; exact Hn].
Qed.

Lemma minutes_until_monotone_witness :
  (100 <= 130)%Q /\ (400 <= 700)%Q /\
  (minutes_until 130 400 <= minutes_until 100 700)%Z.
Proof.
  assert (H1 : (100 <= 130)%Q) by (vm_compute; discriminate).
  assert (H2 : (400 <= 700)%Q) by (vm_compute; discriminate).
  split; [exact H1|split; [exact H2|]].
  exact (minutes_until_monotone 130 100 400 700 H1 H2).
Defined.

(** ** A row of the display *)

Lemma draw_line_data_snd (y_pos : Z) (line_letter : string) (line_color : pen)
    (predictions_str alert_str : string) (scroll_offset : Z) :
  snd (draw_line_data y_pos line_letter line_color predictions_str alert_str scroll_offset)
  = draw_line_data_offset alert_str scroll_offset.
Proof.
  unfold draw_line_data, draw_line_data_offset.
  destruct (String.eqb alert_str "") eqn:E; reflexivity.
Qed.




(** Extra X9: a row's scroll offset stays within range: from any offset at
    most 64, the offset returned is between [-6 * len(alert)] and 64. *)
Theorem draw_line_data_offset_range (y_pos : Z) (line_letter : string) (line_color : pen)
    (predictions_str alert_str : string) (scroll_offset : Z) :
  (scroll_offset <= 64)%Z ->
  let o := snd (draw_line_data y_pos line_letter line_color predictions_str
                               alert_str scroll_offset) in
  (- 6 * Z.of_nat (String.length alert_str) <= o <= 64)%Z.
Proof.
  intros Ho o. subst o. rewrite draw_line_data_snd.
  unfold draw_line_data_offset, draw_text_scroll, rgb_cols, font_width.
  destruct (String.eqb alert_str "") eqn:E.
  - apply String.eqb_eq in E. subst alert_str. cbn. lia.
  - case_match eqn:E2.
    + lia.
    + apply Z.leb_gt in E2. lia.
Qed.

Lemma draw_line_data_offset_range_witness :
  (-30 <= 64)%Z /\
  (- 6 * Z.of_nat (String.length "Delays") <=
   snd (draw_line_data 26 "J" bottom_line_color "N/A" "Delays" (-30)) <= 64)%Z.
Proof.
  assert (H : (-30 <= 64)%Z) by lia.
  split; [exact H|].
  exact (draw_line_data_offset_range 26 "J" bottom_line_color "N/A" "Delays" (-30) H).
Defined.

(** ** The train animation over frames *)

(** Extra X10: the train stays on the panel and the slowdown counter in
    range: if [0 <= train_pos < 70] and [0 <= train_slowdown_counter < 10]
    before a frame, they still are after it. *)
Theorem draw_train_animation_range (train_stale_secs : Z) (now last_updated : Q)
    (st : train_state) :
  (0 <= train_pos st < 70)%Z -> (0 <= train_slowdown_counter st < 10)%Z ->
  let st' := draw_train_animation train_stale_secs now last_updated st in
  (0 <= train_pos st' < 70)%Z /\ (0 <= train_slowdown_counter st' < 10)%Z.
Proof.
  intros Hp Hc st'. subst st'.
  unfold draw_train_animation, train_slowdown_factor, train_length.
  pose proof (Z.mod_pos_bound (train_slowdown_counter st + 1) 10 ltac:(lia)).
  pose proof (Z.mod_pos_bound (train_pos st + 1) (65 + 5) ltac:(lia)).
  repeat case_match; cbn [train_pos train_slowdown_counter]; lia.
Qed.

Lemma draw_train_animation_range_witness :
  let st := {| train_color := train_default_color; train_pos := 69;
               train_slowdown_counter := 9 |} in
  (0 <= train_pos st < 70)%Z /\ (0 <= train_slowdown_counter st < 10)%Z /\
  let st' := draw_train_animation 120 1000 995 st in
  (0 <= train_pos st' < 70)%Z /\ (0 <= train_slowdown_counter st' < 10)%Z.
Proof.
  intros st.
  assert (H1 : (0 <= train_pos st < 70)%Z) by (cbn; lia).
  assert (H2 : (0 <= train_slowdown_counter st < 10)%Z) by (cbn; lia).
  split; [exact H1|split; [exact H2|]].
  exact (draw_train_animation_range 120 1000 995 st H1 H2).
Defined.

Lemma train_frames_no_wrap (train_stale_secs : Z) (last_updated : Q) (nows : list Q)
    (st : train_state) :
  (0 <= train_slowdown_counter st)%Z ->
  (train_slowdown_counter st + Z.of_nat (length nows) < 10)%Z ->
  train_frames train_stale_secs last_updated nows st =
  {| train_color := train_color st; train_pos := train_pos st;
     train_slowdown_counter := train_slowdown_counter st + Z.of_nat (length nows) |}.
Proof.
  unfold train_frames. revert st.
  induction nows as [|n nows IH]; intros st H0 H1; cbn [fold_left length] in *.
  - destruct st; cbn. f_equal. lia.
  - rewrite IH; unfold draw_train_animation, train_slowdown_factor.
    + rewrite Z.mod_small by lia.
      destruct (Z.eqb_spec (train_slowdown_counter st + 1) 0); [lia|].
      cbn. f_equal. lia.
    + rewrite Z.mod_small by lia. repeat case_match; cbn; lia.
    + rewrite Z.mod_small by lia. repeat case_match; cbn; lia.
Qed.

(** Extra X11: with fresh data (rounded staleness below [train_stale_secs]
    at every frame), ten consecutive frames move the train exactly one pixel
    to the right (wrapping at 70) and bring the slowdown counter back to
    where it was. *)
Theorem train_frames_fresh_advance (train_stale_secs : Z) (last_updated : Q)
    (nows : list Q) (st : train_state) :
  (0 <= train_slowdown_counter st < 10)%Z -> length nows = 10%nat ->
  Forall (fun now => (Z.max 0 (py_round (now - last_updated)) < train_stale_secs)%Z) nows ->
  let st' := train_frames train_stale_secs last_updated nows st in
  train_pos st' = ((train_pos st + 1) mod 70)%Z /\
  train_slowdown_counter st' = train_slowdown_counter st.
Proof.
  intros Hc Hlen Hfresh st'. subst st'.
  set (j := Z.to_nat (9 - train_slowdown_counter st)).
  destruct (drop j nows) as [|n rest] eqn:Ed.
  { apply (f_equal length) in Ed. rewrite length_drop in Ed. cbn in Ed. lia. }
  assert (Hsplit : nows = (take j nows ++ n :: rest)%list).
  { rewrite <- Ed, take_drop. reflexivity. }
  assert (Hlt : length (take j nows) = j) by (rewrite length_take; lia).
  assert (Hrest : length rest = Z.to_nat (train_slowdown_counter st)).
  { apply (f_equal length) in Ed. rewrite length_drop in Ed. cbn in Ed. lia. }
  rewrite Hsplit in Hfresh. apply Forall_app in Hfresh as [_ Hfresh].
  apply Forall_cons in Hfresh as [Hn _].
  rewrite Hsplit. unfold train_frames. rewrite fold_left_app.
  fold (train_frames train_stale_secs last_updated (take j nows) st).
  rewrite train_frames_no_wrap by lia.
  cbn [fold_left].
  fold (train_frames train_stale_secs last_updated rest
          (draw_train_animation train_stale_secs n last_updated
             {| train_color := train_color st; train_pos := train_pos st;
                train_slowdown_counter :=
                  train_slowdown_counter st + Z.of_nat (length (take j nows)) |})).
  rewrite Hlt.
  replace (train_slowdown_counter st + Z.of_nat j)%Z with 9%Z by lia.
  unfold draw_train_animation. cbn [train_slowdown_counter train_pos].
  change ((9 + 1) mod train_slowdown_factor)%Z with 0%Z. cbn [Z.eqb].
  destruct (Z.leb_spec train_stale_secs (Z.max 0 (py_round (n - last_updated))));
    [lia|].
  rewrite train_frames_no_wrap by (cbn [train_slowdown_counter]; lia).
  cbn [train_pos train_slowdown_counter train_length]. split; [reflexivity|lia].
Qed.

Lemma train_frames_fresh_advance_witness :
  let st := {| train_color := train_default_color; train_pos := 69;
               train_slowdown_counter := 3 |} in
  let nows := map (fun i => inject_Z (1000 + Z.of_nat i)) (seq 0 10) in
  (0 <= train_slowdown_counter st < 10)%Z /\ length nows = 10%nat /\
  Forall (fun now => (Z.max 0 (py_round (now - 990)) < 120)%Z) nows /\
  train_pos (train_frames 120 990 nows st) = 0%Z /\
  train_slowdown_counter (train_frames 120 990 nows st) = 3%Z.
Proof.
  intros st nows.
  assert (H1 : (0 <= train_slowdown_counter st < 10)%Z) by (cbn; lia).
  assert (H2 : length nows = 10%nat) by reflexivity.
  assert (H3 : Forall (fun now => (Z.max 0 (py_round (now - 990)) < 120)%Z) nows).
  { repeat constructor; vm_compute; reflexivity. }
  split; [exact H1|split; [exact H2|split; [exact H3|]]].
  exact (train_frames_fresh_advance 120 990 nows st H1 H2 H3).
Defined.

(** Extra X12: once the train is at position 34 or 35, it stays at 34 or
    35 for as long as the data is stale (rounded staleness at least
    [train_stale_secs] at every frame): it shakes in place. *)
Theorem train_frames_stale_shake (train_stale_secs : Z) (last_updated : Q)
    (nows : list Q) (st : train_state) :
  (train_pos st = 34 \/ train_pos st = 35)%Z ->
  Forall (fun now => (train_stale_secs <= Z.max 0 (py_round (now - last_updated)))%Z) nows ->
  let st' := train_frames train_stale_secs last_updated nows st in
  (train_pos st' = 34 \/ train_pos st' = 35)%Z.
Proof.
  intros Hp Hstale st'. subst st'. unfold train_frames. revert st Hp.
  induction Hstale as [|n nows Hn _ IH]; intros st Hp; [exact Hp|].
  cbn [fold_left]. apply IH.
  unfold draw_train_animation.
  destruct (_ =? 0)%Z; [|exact Hp].
  apply Z.leb_le in Hn. rewrite Hn.
  cbn [train_pos]. destruct (_ =? 34)%Z; [right|left]; reflexivity.
Qed.

Lemma train_frames_stale_shake_witness :
  let st := {| train_color := train_default_color; train_pos := 34;
               train_slowdown_counter := 7 |} in
  let nows := map (fun i => inject_Z (1000 + Z.of_nat i)) (seq 0 25) in
  (train_pos st = 34 \/ train_pos st = 35)%Z /\
  Forall (fun now => (120 <= Z.max 0 (py_round (now - 0)))%Z) nows /\
  (train_pos (train_frames 120 0 nows st) = 34 \/
   train_pos (train_frames 120 0 nows st) = 35)%Z.
Proof.
  intros st nows.
  assert (H1 : (train_pos st = 34 \/ train_pos st = 35)%Z) by (left; reflexivity).
  assert (H2 : Forall (fun now => (120 <= Z.max 0 (py_round (now - 0)))%Z) nows).
  { repeat constructor; vm_compute; discriminate. }
  split; [exact H1|split; [exact H2|]].
  exact (train_frames_stale_shake 120 0 nows st H1 H2).
Defined.

(** ** The alert store *)

Lemma py_dict_fold_is_Some {V} (kvs : list (string * V)) (m : gmap string V) (k : string) :
  is_Some (fold_left (fun m kv => <[kv.1 := kv.2]> m) kvs m !! k) <->
  In k (map fst kvs) \/ is_Some (m !! k).
Proof.
  revert m. induction kvs as [|[k' v'] kvs IH]; intros m; cbn [fold_left map In fst snd].
  - tauto.
  - rewrite IH, lookup_insert_is_Some'. naive_solver.
Qed.

Lemma py_dict_fold_some_in {V} (kvs : list (string * V)) (m : gmap string V)
    (k : string) (v : V) :
  fold_left (fun m kv => <[kv.1 := kv.2]> m) kvs m !! k = Some v ->
  In (k, v) kvs \/ m !! k = Some v.
Proof.
  revert m. induction kvs as [|[k' v'] kvs IH]; intros m H; cbn [fold_left In] in *.
  - right. exact H.
  - destruct (IH _ H) as [Hin|Hm]; [tauto|].
    destruct (String.string_dec k' k) as [->|Hne].
    + rewrite lookup_insert_eq in Hm. injection Hm as ->. tauto.
    + rewrite lookup_insert_ne in Hm by exact Hne. tauto.
Qed.

Lemma py_dict_of_list_lines {V} (stops : list Stop) (f : Stop -> V) (l : string) :
  is_Some (py_dict_of_list (map (fun stop => (line stop, f stop)) stops) !! l) <->
  In l (map line stops).
Proof.
  unfold py_dict_of_list. rewrite py_dict_fold_is_Some, lookup_empty, map_map.
  cbn [fst]. split; [intros [H|[? H]]; [exact H|discriminate]|intros H; left; exact H].
Qed.

Lemma py_dict_of_list_value {V} (stops : list Stop) (f : Stop -> V) (l : string) (v : V) :
  py_dict_of_list (map (fun stop => (line stop, f stop)) stops) !! l = Some v ->
  exists s, In s stops /\ l = line s /\ v = f s.
Proof.
  unfold py_dict_of_list. intros H.
  destruct (py_dict_fold_some_in _ _ _ _ H) as [Hin|Hm]; [|discriminate].
  apply in_map_iff in Hin as (s & Hs & Hin). injection Hs as <- <-. eauto.
Qed.

Lemma filter_all_false {A} (f : A -> bool) (l : list A) :
  (forall x, In x l -> f x = false) -> filter f l = [].
Proof.
  induction l as [|x l IH]; intros H; [reflexivity|].
  cbn. rewrite (H x (or_introl eq_refl)). apply IH. intros y Hy. apply H. right. exact Hy.
Qed.

(** Extra X13: the alert map built by [fetch_alerts] has an entry exactly
    for the lines of the configured stops, whatever the payload; so
    [get_alert_strs] never meets a missing key for a configured line. *)
Theorem fetch_alerts_result_lines (stops : list Stop) (ignored_alert_text : list string)
    (now : Q) (alerts : list Alert) (l : string) :
  is_Some (fetch_alerts_result stops ignored_alert_text now alerts !! l) <->
  In l (map line stops).
Proof.
  unfold fetch_alerts_result. rewrite !lookup_fmap, !fmap_is_Some.
  unfold stop_to_alert_data. apply py_dict_of_list_lines.
Qed.

(** Extra X14: when no alert of the payload has a period containing [now],
    every configured line gets the empty list, so no alert text is shown. *)
Theorem fetch_alerts_result_none_active (stops : list Stop)
    (ignored_alert_text : list string) (now : Q) (alerts : list Alert) (l : string) :
  (forall alert period, In alert alerts -> In period (ActivePeriods alert) ->
                        ~ ((Start period <= now)%Q /\ (now <= End period)%Q)) ->
  In l (map line stops) ->
  fetch_alerts_result stops ignored_alert_text now alerts !! l = Some [].
Proof.
  intros Hnone Hl.
  unfold fetch_alerts_result. rewrite !lookup_fmap.
  destruct (stop_to_alert_data stops now alerts !! l) as [v|] eqn:E.
  - unfold stop_to_alert_data in E.
    apply py_dict_of_list_value in E as (s & _ & _ & ->).
    rewrite filter_all_false; [reflexivity|].
    intros alert Ha. destruct (alert_filter now s alert) eqn:Ef; [|reflexivity].
    apply alert_filter_spec in Ef as [(p & Hp & H1 & H2) _].
    exfalso. exact (Hnone alert p Ha Hp (conj H1 H2)).
  - exfalso. unfold stop_to_alert_data in E.
    apply (py_dict_of_list_lines stops
             (fun stop => map HeaderText_Translations
                            (filter (alert_filter now stop) alerts)) l) in Hl.
    rewrite E in Hl. destruct Hl as [? H]. discriminate.
Qed.

Lemma fetch_alerts_result_none_active_witness :
  (forall alert period, In alert [window_alert "15731"] ->
                        In period (ActivePeriods alert) ->
                        ~ ((Start period <= 250)%Q /\ (250 <= End period)%Q)) /\
  In "N" (map line stops_NJ) /\
  fetch_alerts_result stops_NJ [] 250 [window_alert "15731"] !! "N" = Some [].
Proof.
  assert (H1 : forall alert period, In alert [window_alert "15731"] ->
                 In period (ActivePeriods alert) ->
                 ~ ((Start period <= 250)%Q /\ (250 <= End period)%Q)).
  { intros alert period [<-|[]] Hp. cbn in Hp. destruct Hp as [<-|[]].
    cbn. intros [_ H]. apply H. reflexivity. }
  assert (H2 : In "N" (map line stops_NJ)) by (left; reflexivity).
  split; [exact H1|split; [exact H2|]].
  exact (fetch_alerts_result_none_active stops_NJ [] 250 [window_alert "15731"] "N" H1 H2).
Defined.

(** ** The prediction workers *)

Lemma parse_expected_times_value_error (fromisoformat_timestamp : string -> option Q)
    (visits : list MonitoredStopVisit) (v : MonitoredStopVisit) (s : string) :
  In v visits -> ExpectedArrivalTime v = Some s -> fromisoformat_timestamp s = None ->
  parse_expected_times fromisoformat_timestamp visits = inr ValueError.
Proof.
  intros Hin Hv Hs. induction visits as [|v' visits IH]; [destruct Hin|].
  unfold parse_expected_times. cbn [map foldr].
  fold (parse_expected_times fromisoformat_timestamp visits).
  destruct Hin as [<-|Hin].
  - rewrite Hv, Hs. reflexivity.
  - rewrite (IH Hin).
    destruct (ExpectedArrivalTime v') as [s'|]; [|reflexivity].
    destruct (fromisoformat_timestamp s'); reflexivity.
Qed.

(** Extra X15: a single arrival time that [datetime.fromisoformat] cannot
    parse makes the worker of that stop raise [ValueError] (wherever it is
    in the payload), and the worker then stores nothing: the line keeps its
    previous list. *)
Theorem prediction_worker_value_error (fromisoformat_timestamp : string -> option Q)
    (prediction_times : gmap string (list Q)) (line' : string)
    (visits : list MonitoredStopVisit) (v : MonitoredStopVisit) (s : string) :
  In v visits -> ExpectedArrivalTime v = Some s -> fromisoformat_timestamp s = None ->
  fetch_and_parse_predictions fromisoformat_timestamp line' visits prediction_times =
    inr ValueError /\
  prediction_worker_commit fromisoformat_timestamp prediction_times (line', visits) =
    prediction_times.
Proof.
  intros Hin Hv Hs.
  assert (H : fetch_and_parse_predictions fromisoformat_timestamp line' visits
                prediction_times = inr ValueError).
  { unfold fetch_and_parse_predictions.
    rewrite (parse_expected_times_value_error _ _ v s Hin Hv Hs). reflexivity. }
  split; [exact H|]. unfold prediction_worker_commit. cbn [fst snd]. rewrite H.
  reflexivity.
Qed.

Lemma prediction_worker_value_error_witness :
  let bad := {| ExpectedArrivalTime := Some "soon" |} in
  let visits := [{| ExpectedArrivalTime := Some "2024-05-01T17:05:00Z" |}; bad] in
  let store := <["N" := [1000%Q]]> (∅ : gmap string (list Q)) in
  In bad visits /\ ExpectedArrivalTime bad = Some "soon" /\
  iso_utc_timestamp "soon" = None /\
  fetch_and_parse_predictions iso_utc_timestamp "N" visits store = inr ValueError /\
  prediction_worker_commit iso_utc_timestamp store ("N", visits) = store.
Proof.
  intros bad visits store.
  assert (H1 : In bad visits) by (right; left; reflexivity).
  assert (H2 : ExpectedArrivalTime bad = Some "soon") by reflexivity.
  assert (H3 : iso_utc_timestamp "soon" = None) by (vm_compute; reflexivity).
  split; [exact H1|split; [exact H2|split; [exact H3|]]].
  exact (prediction_worker_value_error iso_utc_timestamp store "N" visits bad "soon" H1 H2 H3).
Defined.

Lemma prediction_worker_commit_comm (fromisoformat_timestamp : string -> option Q)
    (m : gmap string (list Q)) (j1 j2 : string * list MonitoredStopVisit) :
  j1.1 <> j2.1 ->
  prediction_worker_commit fromisoformat_timestamp
    (prediction_worker_commit fromisoformat_timestamp m j1) j2 =
  prediction_worker_commit fromisoformat_timestamp
    (prediction_worker_commit fromisoformat_timestamp m j2) j1.
Proof.
  intros Hne. unfold prediction_worker_commit, fetch_and_parse_predictions.
  destruct (parse_expected_times fromisoformat_timestamp j1.2),
           (parse_expected_times fromisoformat_timestamp j2.2); try reflexivity.
  apply insert_insert_ne. intros E. apply Hne. symmetry. exact E.
Qed.

Lemma prediction_worker_commit_other (fromisoformat_timestamp : string -> option Q)
    (m : gmap string (list Q)) (j : string * list MonitoredStopVisit) (l : string) :
  j.1 <> l ->
  prediction_worker_commit fromisoformat_timestamp m j !! l = m !! l.
Proof.
  intros Hne. unfold prediction_worker_commit, fetch_and_parse_predictions.
  destruct (parse_expected_times fromisoformat_timestamp j.2); [|reflexivity].
  apply lookup_insert_ne. exact Hne.
Qed.

Lemma prediction_workers_other (fromisoformat_timestamp : string -> option Q)
    (jobs : list (string * list MonitoredStopVisit)) (m : gmap string (list Q)) (l : string) :
  ~ In l (map fst jobs) ->
  foldl (prediction_worker_commit fromisoformat_timestamp) m jobs !! l = m !! l.
Proof.
  revert m. induction jobs as [|j jobs IH]; intros m Hl; [reflexivity|].
  cbn [foldl]. cbn [map In] in Hl. rewrite IH by tauto.
  apply prediction_worker_commit_other. tauto.
Qed.

Lemma prediction_workers_perm (fromisoformat_timestamp : string -> option Q)
    (jobs jobs' : list (string * list MonitoredStopVisit)) :
  Permutation jobs jobs' -> List.NoDup (map fst jobs) ->
  forall m, foldl (prediction_worker_commit fromisoformat_timestamp) m jobs =
            foldl (prediction_worker_commit fromisoformat_timestamp) m jobs'.
Proof.
  induction 1 as [|j l l' _ IH|j1 j2 l|l l' l'' H1 IH1 H2 IH2]; intros Hnd m.
  - reflexivity.
  - cbn [foldl]. apply IH. cbn [map] in Hnd. inversion Hnd. assumption.
  - cbn [foldl]. cbn [map] in Hnd. inversion Hnd as [|? ? Hn1 Hnd']; subst.
    inversion Hnd' as [|? ? Hn2 _]; subst.
    rewrite prediction_worker_commit_comm; [reflexivity|].
    intros E. apply Hn1. rewrite E. left. reflexivity.
  - rewrite IH1 by exact Hnd. apply IH2.
    apply (Permutation_NoDup (Permutation_map fst H1)). exact Hnd.
Qed.

(** Extra X16: the outcome of [fetch_all_predictions] does not depend on
    the order in which its worker threads finish: for stops of distinct
    lines, any completion order leaves the same store and the same stamp. *)
Theorem fetch_all_predictions_order_independent (fromisoformat_timestamp : string -> option Q)
    (jobs jobs' : list (string * list MonitoredStopVisit))
    (prediction_times : gmap string (list Q)) (now : Q) :
  Permutation jobs jobs' -> List.NoDup (map fst jobs) ->
  fetch_all_predictions fromisoformat_timestamp jobs prediction_times now =
  fetch_all_predictions fromisoformat_timestamp jobs' prediction_times now.
Proof.
  intros Hp Hnd. unfold fetch_all_predictions.
  rewrite (prediction_workers_perm _ _ _ Hp Hnd). reflexivity.
Qed.

Lemma fetch_all_predictions_order_independent_witness :
  let jobs := [("N", [{| ExpectedArrivalTime := Some "2024-05-01T17:05:00Z" |}]);
               ("J", [{| ExpectedArrivalTime := Some "2024-05-01T17:10:00Z" |}])] in
  let jobs' := [("J", [{| ExpectedArrivalTime := Some "2024-05-01T17:10:00Z" |}]);
                ("N", [{| ExpectedArrivalTime := Some "2024-05-01T17:05:00Z" |}])] in
  Permutation jobs jobs' /\ List.NoDup (map fst jobs) /\
  fetch_all_predictions iso_utc_timestamp jobs (initial_prediction_times stops_NJ) 1000 =
  fetch_all_predictions iso_utc_timestamp jobs' (initial_prediction_times stops_NJ) 1000.
Proof.
  intros jobs jobs'.
  assert (H1 : Permutation jobs jobs') by apply perm_swap.
  assert (H2 : List.NoDup (map fst jobs)).
  { constructor; [intros [H|[]]; discriminate|]. constructor; [intros []|constructor]. }
  split; [exact H1|split; [exact H2|]].
  exact (fetch_all_predictions_order_independent iso_utc_timestamp jobs jobs'
           (initial_prediction_times stops_NJ) 1000 H1 H2).
Defined.

(** Extra X17: after [fetch_all_predictions] (stops of distinct lines),
    each stop's line holds the times parsed from its own payload, in payload
    order; a stop whose worker raised keeps its previous list; and the
    freshness stamp is set to the time of the round in both cases. *)
Theorem fetch_all_predictions_lookup (fromisoformat_timestamp : string -> option Q)
    (jobs : list (string * list MonitoredStopVisit))
    (prediction_times : gmap string (list Q)) (now : Q)
    (line' : string) (visits : list MonitoredStopVisit) :
  List.NoDup (map fst jobs) -> In (line', visits) jobs ->
  let r := fetch_all_predictions fromisoformat_timestamp jobs prediction_times now in
  r.1 !! line' = match parse_expected_times fromisoformat_timestamp visits with
                 | inl expected_times => Some expected_times
                 | inr _ => prediction_times !! line'
                 end /\
  r.2 = now.
Proof.
  intros Hnd Hin r. subst r. split; [|reflexivity].
  unfold fetch_all_predictions. cbn [fst].
  revert prediction_times. induction jobs as [|j jobs IH]; intros m; [destruct Hin|].
  cbn [foldl]. cbn [map] in Hnd. inversion Hnd as [|? ? Hj Hnd']; subst.
  destruct Hin as [->|Hin].
  - rewrite prediction_workers_other by exact Hj.
    unfold prediction_worker_commit, fetch_and_parse_predictions. cbn [fst snd].
    destruct (parse_expected_times fromisoformat_timestamp visits); [|reflexivity].
    apply lookup_insert_eq.
  - rewrite (IH Hnd' Hin).
    destruct (parse_expected_times fromisoformat_timestamp visits); [reflexivity|].
    apply prediction_worker_commit_other.
    intros E. apply Hj. rewrite E. apply in_map_iff. exists (line', visits). auto.
Qed.

Lemma fetch_all_predictions_lookup_witness :
  let jobs := [("N", [{| ExpectedArrivalTime := Some "2024-05-01T17:05:00Z" |}]);
               ("J", [{| ExpectedArrivalTime := Some "later" |}])] in
  let store := <["J" := [5%Q]]> (initial_prediction_times stops_NJ) in
  List.NoDup (map fst jobs) /\
  In ("J", [{| ExpectedArrivalTime := Some "later" |}]) jobs /\
  (fetch_all_predictions iso_utc_timestamp jobs store 1000).1 !! "J" = Some [5%Q] /\
  (fetch_all_predictions iso_utc_timestamp jobs store 1000).2 = 1000%Q.
Proof.
  intros jobs store.
  assert (H1 : List.NoDup (map fst jobs)).
  { constructor; [intros [H|[]]; discriminate|]. constructor; [intros []|constructor]. }
  assert (H2 : In ("J", [{| ExpectedArrivalTime := Some "later" |}]) jobs)
    by (right; left; reflexivity).
  destruct (fetch_all_predictions_lookup iso_utc_timestamp jobs store 1000 "J"
              [{| ExpectedArrivalTime := Some "later" |}] H1 H2) as [H3 H4].
  split; [exact H1|split; [exact H2|split; [|exact H4]]].
  rewrite H3. vm_compute. reflexivity.
Defined.

(** ** A frame of the render loop *)

Lemma py_dict_of_list_const {V} (stops : list Stop) (v : V) (s : Stop) :
  In s stops -> py_dict_of_list (map (fun stop => (line stop, v)) stops) !! line s = Some v.
Proof.
  intros Hin.
  destruct (proj2 (py_dict_of_list_lines stops (fun _ => v) (line s))
              (in_map line _ _ Hin)) as [v' Hv].
  rewrite Hv. apply py_dict_of_list_value in Hv as (_ & _ & _ & ->). reflexivity.
Qed.

Lemma render_frame_rows (s0 s1 : Stop) (rest : list Stop) (train_stale_secs : Z)
    (now_top now_bottom now_train prediction_data_last_updated : Q)
    (prediction_times : gmap string (list Q)) (alerts' : gmap string (list string))
    (fs : frame_state) (t0 t1 : list Q) (a0 a1 : list string) :
  prediction_times !! line s0 = Some t0 -> prediction_times !! line s1 = Some t1 ->
  alerts' !! line s0 = Some a0 -> alerts' !! line s1 = Some a1 ->
  let top := draw_line_data top_y (line s0) top_line_color
               (expected_times_to_display_str now_top t0) (py_join " / " a0)
               (top_text_scroll_offset fs) in
  let bottom := draw_line_data bottom_y (line s1) bottom_line_color
                  (expected_times_to_display_str now_bottom t1) (py_join " / " a1)
                  (bottom_text_scroll_offset fs) in
  let st := draw_train_animation train_stale_secs now_train
                                 prediction_data_last_updated (train fs) in
  render_frame (s0 :: s1 :: rest) train_stale_secs now_top now_bottom now_train
               prediction_data_last_updated prediction_times alerts' fs =
  Some ((top.1 ++ bottom.1 ++ [train_cmd st])%list,
        {| top_text_scroll_offset := top.2; bottom_text_scroll_offset := bottom.2;
           train := st |}).
Proof.
  intros Ht0 Ht1 Ha0 Ha1 top bottom st.
  unfold render_frame, get_prediction_strs, get_alert_strs.
  rewrite Ht0, Ht1, Ha0, Ha1. subst top bottom st.
  destruct (draw_line_data _ _ _ _ _ (top_text_scroll_offset fs)).
  destruct (draw_line_data _ _ _ _ _ (bottom_text_scroll_offset fs)).
  reflexivity.
Qed.

(** Extra X18: the first frame after start-up, before any fetch has
    stored data, shows ["N/A"] at [(15, 12)] for the first stop's line and
    at [(15, 26)] for the second one, each with its line circle and letter,
    then the train; both scroll offsets stay at 64. *)
Theorem render_frame_initial (s0 s1 : Stop) (rest : list Stop) (train_stale_secs : Z)
    (now_top now_bottom now_train : Q) :
  let stops := s0 :: s1 :: rest in
  let st := draw_train_animation train_stale_secs now_train 0
              {| train_color := train_default_color; train_pos := 0;
                 train_slowdown_counter := 0 |} in
  render_frame stops train_stale_secs now_top now_bottom now_train 0
               (initial_prediction_times stops) (initial_alerts stops)
               initial_frame_state =
  Some ([DrawText 15 12 predictions_color "N/A";
         DrawCircle 6 8 5 top_line_color;
         DrawText 4 12 line_text_color (line s0);
         DrawText 15 26 predictions_color "N/A";
         DrawCircle 6 22 5 bottom_line_color;
         DrawText 4 26 line_text_color (line s1);
         train_cmd st],
        {| top_text_scroll_offset := 64; bottom_text_scroll_offset := 64;
           train := st |}).
Proof.
  intros stops st.
  assert (Hin0 : In s0 stops) by (left; reflexivity).
  assert (Hin1 : In s1 stops) by (right; left; reflexivity).
  unfold initial_prediction_times, initial_alerts.
  rewrite (render_frame_rows s0 s1 rest _ _ _ _ _ _ _ _ [] [] [] []);
    try (apply py_dict_of_list_const; assumption).
  reflexivity.
Qed.

Lemma prediction_workers_is_Some (fromisoformat_timestamp : string -> option Q)
    (jobs : list (string * list MonitoredStopVisit)) (m : gmap string (list Q)) (l : string) :
  is_Some (m !! l) ->
  is_Some (foldl (prediction_worker_commit fromisoformat_timestamp) m jobs !! l).
Proof.
  revert m. induction jobs as [|j jobs IH]; intros m Hm; [exact Hm|].
  cbn [foldl]. apply IH.
  unfold prediction_worker_commit, fetch_and_parse_predictions.
  destruct (parse_expected_times fromisoformat_timestamp j.2); [|exact Hm].
  apply lookup_insert_is_Some'. right. exact Hm.
Qed.

Lemma stores_reachable_lines (fromisoformat_timestamp : string -> option Q)
    (stops : list Stop) (ignored_alert_text : list string)
    (prediction_times : gmap string (list Q)) (alerts' : gmap string (list string)) :
  stores_reachable fromisoformat_timestamp stops ignored_alert_text prediction_times alerts' ->
  forall s, In s stops ->
  is_Some (prediction_times !! line s) /\ is_Some (alerts' !! line s).
Proof.
  induction 1 as [|pt al jobs now _ IH|pt al now raw _ IH]; intros s Hin.
  - unfold initial_prediction_times, initial_alerts.
    rewrite !py_dict_of_list_const by exact Hin. split; eexists; reflexivity.
  - split; [|apply (IH s Hin)].
    unfold fetch_all_predictions. cbn [fst].
    apply prediction_workers_is_Some, (IH s Hin).
  - split; [apply (IH s Hin)|].
    unfold fetch_alerts_result. rewrite !lookup_fmap, !fmap_is_Some.
    unfold stop_to_alert_data. apply py_dict_of_list_lines. apply in_map. exact Hin.
Qed.

(** Extra X19: with at least two configured stops, a frame of the render
    loop never fails on a missing key: whatever rounds of
    [fetch_all_predictions] and [fetch_alerts] have run since start-up, both
    stores still hold an entry for the lines of [stops[0]] and
    [stops[1]]. *)
Theorem render_frame_total (fromisoformat_timestamp : string -> option Q)
    (stops : list Stop) (ignored_alert_text : list string)
    (prediction_times : gmap string (list Q)) (alerts' : gmap string (list string))
    (train_stale_secs : Z) (now_top now_bottom now_train prediction_data_last_updated : Q)
    (fs : frame_state) :
  (2 <= length stops)%nat ->
  stores_reachable fromisoformat_timestamp stops ignored_alert_text prediction_times alerts' ->
  is_Some (render_frame stops train_stale_secs now_top now_bottom now_train
                        prediction_data_last_updated prediction_times alerts' fs).
Proof.
  intros Hlen Hr.
  destruct stops as [|s0 [|s1 rest]]; cbn [length] in Hlen; [lia|lia|].
  destruct (stores_reachable_lines _ _ _ _ _ Hr s0 (or_introl eq_refl))
    as [[t0 Ht0] [a0 Ha0]].
  destruct (stores_reachable_lines _ _ _ _ _ Hr s1 (or_intror (or_introl eq_refl)))
    as [[t1 Ht1] [a1 Ha1]].
  rewrite (render_frame_rows s0 s1 rest _ _ _ _ _ _ _ _ t0 t1 a0 a1 Ht0 Ht1 Ha0 Ha1).
  eexists. reflexivity.
Qed.

Lemma render_frame_total_witness :
  let jobs := [("N", [{| ExpectedArrivalTime := Some "2024-05-01T17:05:00Z" |}])] in
  let pt := (fetch_all_predictions iso_utc_timestamp jobs
               (initial_prediction_times stops_NJ) 1000).1 in
  let al := fetch_alerts_result stops_NJ [] 150 [window_alert "15731"] in
  (2 <= length stops_NJ)%nat /\
  stores_reachable iso_utc_timestamp stops_NJ [] pt al /\
  is_Some (render_frame stops_NJ 120 1000 1000 1000 1000 pt al initial_frame_state).
Proof.
  intros jobs pt al.
  assert (H1 : (2 <= length stops_NJ)%nat) by (cbn; lia).
  assert (H2 : stores_reachable iso_utc_timestamp stops_NJ [] pt al).
  { eapply stores_alerts. eapply stores_predictions. apply stores_init. }
  split; [exact H1|split; [exact H2|]].
  exact (render_frame_total iso_utc_timestamp stops_NJ [] pt al 120 1000 1000 1000 1000
           initial_frame_state H1 H2).
Defined.

(** Extra X20: in a frame where neither row has an alert, the top row
    (y = 12) shows the display string of [stops[0]]'s times and the bottom
    row (y = 26) that of [stops[1]]'s times, both at x = 15, and both scroll
    offsets are reset to 64: [run] unpacks the [(bottom, top)] pairs of
    [get_prediction_strs] and [get_alert_strs] onto the right rows. *)
Theorem render_frame_no_alerts (s0 s1 : Stop) (rest : list Stop) (train_stale_secs : Z)
    (now_top now_bottom now_train prediction_data_last_updated : Q)
    (prediction_times : gmap string (list Q)) (alerts' : gmap string (list string))
    (fs : frame_state) (t0 t1 : list Q) :
  prediction_times !! line s0 = Some t0 -> prediction_times !! line s1 = Some t1 ->
  alerts' !! line s0 = Some [] -> alerts' !! line s1 = Some [] ->
  let st := draw_train_animation train_stale_secs now_train
                                 prediction_data_last_updated (train fs) in
  render_frame (s0 :: s1 :: rest) train_stale_secs now_top now_bottom now_train
               prediction_data_last_updated prediction_times alerts' fs =
  Some ([DrawText 15 12 predictions_color (expected_times_to_display_str now_top t0);
         DrawCircle 6 8 5 top_line_color;
         DrawText 4 12 line_text_color (line s0);
         DrawText 15 26 predictions_color (expected_times_to_display_str now_bottom t1);
         DrawCircle 6 22 5 bottom_line_color;
         DrawText 4 26 line_text_color (line s1);
         train_cmd st],
        {| top_text_scroll_offset := 64; bottom_text_scroll_offset := 64;
           train := st |}).
Proof.
  intros Ht0 Ht1 Ha0 Ha1 st.
  rewrite (render_frame_rows s0 s1 rest _ _ _ _ _ _ _ _ t0 t1 [] [] Ht0 Ht1 Ha0 Ha1).
  reflexivity.
Qed.

Lemma render_frame_no_alerts_witness :
  let pt := <["J" := [1300%Q]]> (<["N" := [1100%Q; 1500%Q]]> (∅ : gmap string (list Q))) in
  let al := <["J" := []]> (<["N" := []]> (∅ : gmap string (list string))) in
  let fs := {| top_text_scroll_offset := 20; bottom_text_scroll_offset := -5;
               train := {| train_color := train_default_color; train_pos := 10;
                           train_slowdown_counter := 3 |} |} in
  pt !! "N" = Some [1100%Q; 1500%Q] /\ pt !! "J" = Some [1300%Q] /\
  al !! "N" = Some [] /\ al !! "J" = Some [] /\
  render_frame stops_NJ 120 1000 1000 1000 990 pt al fs =
  Some ([DrawText 15 12 predictions_color "1,8";
         DrawCircle 6 8 5 top_line_color;
         DrawText 4 12 line_text_color "N";
         DrawText 15 26 predictions_color "5";
         DrawCircle 6 22 5 bottom_line_color;
         DrawText 4 26 line_text_color "J";
         train_cmd (draw_train_animation 120 1000 990 (train fs))],
        {| top_text_scroll_offset := 64; bottom_text_scroll_offset := 64;
           train := draw_train_animation 120 1000 990 (train fs) |}).
Proof.
  intros pt al fs.
  assert (H1 : pt !! "N" = Some [1100%Q; 1500%Q]) by (vm_compute; reflexivity).
  assert (H2 : pt !! "J" = Some [1300%Q]) by (vm_compute; reflexivity).
  assert (H3 : al !! "N" = Some []) by (vm_compute; reflexivity).
  assert (H4 : al !! "J" = Some []) by (vm_compute; reflexivity).
  split; [exact H1|split; [exact H2|split; [exact H3|split; [exact H4|]]]].
  unfold stops_NJ.
  rewrite (render_frame_no_alerts {| line := "N"; stop_code := "15731" |}
             {| line := "J"; stop_code := "14006" |} [] 120 1000 1000 1000 990 pt al fs
             [1100%Q; 1500%Q] [1300%Q] H1 H2 H3 H4).
  vm_compute. reflexivity.
Defined.
